(** * KYC intake form (src/App.tsx): a shallow embedding and its properties

    The component [KYCSubmissionWebsite] keeps its data in React state
    variables, two DOM references and the callbacks it hands to the browser
    (file reader, camera acquisition, canvas encoder, timers).  The
    embedding keeps that shape: one record for the state variables and the
    references, one function per handler of the source, and a list of
    suspended callbacks that the browser resumes later. *)

From Stdlib Require Import ZArith NArith String Ascii List Bool Lia.
From Stdlib Require QArith.
From stdpp Require Import gmap strings list fin_maps.

Local Open Scope string_scope.
Local Open Scope Z_scope.

(** ** JavaScript values used by the component *)

Module JS.

(** Truthiness of a string: only the empty string is falsy. *)
Definition truthy (s : string) : bool :=
  match s with
  | EmptyString => false
  | String _ _ => true
  end.

(** Truthiness of a possibly undefined (or null) string. *)
Definition truthy_opt (v : option string) : bool :=
  match v with
  | Some s => truthy s
  | None => false
  end.

(** [a || b] on strings. *)
Definition or_else (a b : string) : string := if truthy a then a else b.

(** [String.prototype.includes]. *)
Fixpoint includes (hay needle : string) : bool :=
  String.prefix needle hay ||
  match hay with
  | EmptyString => false
  | String _ rest => includes rest needle
  end.

Definition upper_ascii (c : ascii) : ascii :=
  let n := nat_of_ascii c in
  if (97 <=? n)%nat && (n <=? 122)%nat then ascii_of_nat (n - 32) else c.

Definition lower_ascii (c : ascii) : ascii :=
  let n := nat_of_ascii c in
  if (65 <=? n)%nat && (n <=? 90)%nat then ascii_of_nat (n + 32) else c.

(** [s.charAt(0)], [s.slice(1)], [s.toUpperCase()], [s.toLowerCase()]. *)
Definition charAt0 (s : string) : string :=
  match s with
  | EmptyString => EmptyString
  | String c _ => String c EmptyString
  end.

Definition slice1 (s : string) : string :=
  match s with
  | EmptyString => EmptyString
  | String _ rest => rest
  end.

Fixpoint toUpperCase (s : string) : string :=
  match s with
  | EmptyString => EmptyString
  | String c rest => String (upper_ascii c) (toUpperCase rest)
  end.

Fixpoint toLowerCase (s : string) : string :=
  match s with
  | EmptyString => EmptyString
  | String c rest => String (lower_ascii c) (toLowerCase rest)
  end.

(** [/Android/i.test(s)]: a case-insensitive search for the word. *)
Definition test_Android_i (s : string) : bool :=
  includes (toLowerCase s) "android".

(** A JavaScript object used as a dictionary from property names to
    strings.  A property can be present and hold [undefined]
    ([None]); reading an absent property gives [undefined] too. *)
Abbreviation obj := (gmap string (option string)).

Definition get (o : obj) (k : string) : option string :=
  match o !! k with
  | Some v => v
  | None => None
  end.

(** [Object.keys(o).length === 0]. *)
Definition no_keys (o : obj) : bool := bool_decide (size o = 0%nat).

End JS.

(** ** Data model *)

(** [FormData.documentType] and the values of the [<select>] options. *)
Inductive DocumentType := passport | id_card | drivers_license.

Definition documentType_value (d : DocumentType) : string :=
  match d with
  | passport => "passport"
  | id_card => "id_card"
  | drivers_license => "drivers_license"
  end.

Record FormData := mkFormData {
  documentType : DocumentType;
  country : string
}.

(** The two file-picker slots of [handleFileUpload]. *)
Inductive Slot := front | back.

Definition slot_value (t : Slot) : string :=
  match t with
  | front => "front"
  | back => "back"
  end.

(** A [MediaStream] is known by its identity; its tracks are live or
    stopped together ([getTracks().forEach(track => track.stop())]). *)
Definition MediaStream := nat.

(** The [<canvas>] element behind [canvasRef]. *)
Record Canvas := mkCanvas {
  canvas_width : N;
  canvas_height : N
}.

(** The result of [canvas.toBlob(cb, type, quality)]: the canvas content
    encoded as [blob_type] at [blob_quality]. *)
Record Blob := mkBlob {
  blob_type : string;
  blob_quality : QArith_base.Q;
  blob_source : Canvas;
  blob_size : N
}.

Inductive FileBody :=
| Picked (content : nat)
| Parts (bits : list Blob).

Record File := mkFile {
  file_name : string;
  file_type : string;
  file_size : N;
  file_body : FileBody
}.

(** [new File([blob], name, { type })]. *)
Definition new_File (blob : Blob) (name type : string) : File :=
  {| file_name := name; file_type := type;
     file_size := blob_size blob; file_body := Parts [blob] |}.

(** The [<video>] element behind [videoRef]. *)
Record Video := mkVideo {
  srcObject : option MediaStream;
  videoWidth : N;
  videoHeight : N
}.

Definition fresh_video : Video :=
  {| srcObject := None; videoWidth := 0; videoHeight := 0 |}.

Definition fresh_canvas : Canvas :=
  {| canvas_width := 300; canvas_height := 150 |}.

(** Errors thrown inside [startCamera]: [err.name] and [err.message]. *)
Record JsError := mkError {
  err_name : string;
  err_message : string
}.

Definition new_Error (message : string) : JsError :=
  {| err_name := "Error"; err_message := message |}.

(** The argument of [getUserMedia]. *)
Record Range := mkRange {
  range_min : option Z;
  range_ideal : option Z;
  range_max : option Z
}.

Inductive VideoConstraints :=
| VideoFlag (enabled : bool)
| VideoTrack (facingMode : string) (width height : option Range).

Record MediaStreamConstraints := mkConstraints {
  video : VideoConstraints;
  audio : bool
}.

(** A callback the component has handed to the browser and that has not
    run yet. *)
Inductive Task :=
| ReaderTask (file : File) (type : Slot)
| AcquireTask
| BlobTask (canvas : Canvas) (type : string) (quality : QArith_base.Q)
           (closure_stream : option MediaStream)
| StartCameraTimer
| SubmitTimer.

(** The state variables of the component ([useState]), its two element
    references ([useRef]), the streams whose tracks are live, and the
    suspended callbacks. *)
Record State := mkState {
  currentStep : Z;
  formData : FormData;
  documentFrontFile : option File;
  documentBackFile : option File;
  selfieFile : option File;
  documentFrontPreview : option string;
  documentBackPreview : option string;
  selfiePreview : option string;
  errors : JS.obj;
  isSubmitting : bool;
  submitSuccess : bool;
  showCamera : bool;
  stream : option MediaStream;
  cameraError : option string;
  videoRef : option Video;
  canvasRef : option Canvas;
  liveTracks : gset MediaStream;
  pending : list Task
}.

Definition initial : State :=
  {| currentStep := 1;
     formData := {| documentType := passport; country := EmptyString |};
     documentFrontFile := None; documentBackFile := None; selfieFile := None;
     documentFrontPreview := None; documentBackPreview := None;
     selfiePreview := None;
     errors := ∅;
     isSubmitting := false; submitSuccess := false; showCamera := false;
     stream := None; cameraError := None;
     videoRef := None; canvasRef := None;
     liveTracks := ∅; pending := [] |}.

(** The setters of the state variables ([setX(v)] leaves every other
    variable as it is), and the same for the references and the browser
    side. *)

Definition setCurrentStep (v : Z) (s : State) : State :=
  mkState v (formData s) (documentFrontFile s) (documentBackFile s)
    (selfieFile s) (documentFrontPreview s) (documentBackPreview s)
    (selfiePreview s) (errors s) (isSubmitting s) (submitSuccess s)
    (showCamera s) (stream s) (cameraError s) (videoRef s) (canvasRef s)
    (liveTracks s) (pending s).

Definition setFormData (v : FormData) (s : State) : State :=
  mkState (currentStep s) v (documentFrontFile s) (documentBackFile s)
    (selfieFile s) (documentFrontPreview s) (documentBackPreview s)
    (selfiePreview s) (errors s) (isSubmitting s) (submitSuccess s)
    (showCamera s) (stream s) (cameraError s) (videoRef s) (canvasRef s)
    (liveTracks s) (pending s).

Definition setDocumentFrontFile (v : option File) (s : State) : State :=
  mkState (currentStep s) (formData s) v (documentBackFile s) (selfieFile s)
    (documentFrontPreview s) (documentBackPreview s) (selfiePreview s)
    (errors s) (isSubmitting s) (submitSuccess s) (showCamera s) (stream s)
    (cameraError s) (videoRef s) (canvasRef s) (liveTracks s) (pending s).

Definition setDocumentBackFile (v : option File) (s : State) : State :=
  mkState (currentStep s) (formData s) (documentFrontFile s) v
    (selfieFile s) (documentFrontPreview s) (documentBackPreview s)
    (selfiePreview s) (errors s) (isSubmitting s) (submitSuccess s)
    (showCamera s) (stream s) (cameraError s) (videoRef s) (canvasRef s)
    (liveTracks s) (pending s).

Definition setSelfieFile (v : option File) (s : State) : State :=
  mkState (currentStep s) (formData s) (documentFrontFile s)
    (documentBackFile s) v (documentFrontPreview s) (documentBackPreview s)
    (selfiePreview s) (errors s) (isSubmitting s) (submitSuccess s)
    (showCamera s) (stream s) (cameraError s) (videoRef s) (canvasRef s)
    (liveTracks s) (pending s).

Definition setDocumentFrontPreview (v : option string) (s : State) : State :=
  mkState (currentStep s) (formData s) (documentFrontFile s)
    (documentBackFile s) (selfieFile s) v (documentBackPreview s)
    (selfiePreview s) (errors s) (isSubmitting s) (submitSuccess s)
    (showCamera s) (stream s) (cameraError s) (videoRef s) (canvasRef s)
    (liveTracks s) (pending s).

Definition setDocumentBackPreview (v : option string) (s : State) : State :=
  mkState (currentStep s) (formData s) (documentFrontFile s)
    (documentBackFile s) (selfieFile s) (documentFrontPreview s) v
    (selfiePreview s) (errors s) (isSubmitting s) (submitSuccess s)
    (showCamera s) (stream s) (cameraError s) (videoRef s) (canvasRef s)
    (liveTracks s) (pending s).

Definition setSelfiePreview (v : option string) (s : State) : State :=
  mkState (currentStep s) (formData s) (documentFrontFile s)
    (documentBackFile s) (selfieFile s) (documentFrontPreview s)
    (documentBackPreview s) v (errors s) (isSubmitting s) (submitSuccess s)
    (showCamera s) (stream s) (cameraError s) (videoRef s) (canvasRef s)
    (liveTracks s) (pending s).

Definition setErrors (v : JS.obj) (s : State) : State :=
  mkState (currentStep s) (formData s) (documentFrontFile s)
    (documentBackFile s) (selfieFile s) (documentFrontPreview s)
    (documentBackPreview s) (selfiePreview s) v (isSubmitting s)
    (submitSuccess s) (showCamera s) (stream s) (cameraError s) (videoRef s)
    (canvasRef s) (liveTracks s) (pending s).

Definition setIsSubmitting (v : bool) (s : State) : State :=
  mkState (currentStep s) (formData s) (documentFrontFile s)
    (documentBackFile s) (selfieFile s) (documentFrontPreview s)
    (documentBackPreview s) (selfiePreview s) (errors s) v (submitSuccess s)
    (showCamera s) (stream s) (cameraError s) (videoRef s) (canvasRef s)
    (liveTracks s) (pending s).

Definition setSubmitSuccess (v : bool) (s : State) : State :=
  mkState (currentStep s) (formData s) (documentFrontFile s)
    (documentBackFile s) (selfieFile s) (documentFrontPreview s)
    (documentBackPreview s) (selfiePreview s) (errors s) (isSubmitting s) v
    (showCamera s) (stream s) (cameraError s) (videoRef s) (canvasRef s)
    (liveTracks s) (pending s).

Definition setShowCamera (v : bool) (s : State) : State :=
  mkState (currentStep s) (formData s) (documentFrontFile s)
    (documentBackFile s) (selfieFile s) (documentFrontPreview s)
    (documentBackPreview s) (selfiePreview s) (errors s) (isSubmitting s)
    (submitSuccess s) v (stream s) (cameraError s) (videoRef s)
    (canvasRef s) (liveTracks s) (pending s).

Definition setStream (v : option MediaStream) (s : State) : State :=
  mkState (currentStep s) (formData s) (documentFrontFile s)
    (documentBackFile s) (selfieFile s) (documentFrontPreview s)
    (documentBackPreview s) (selfiePreview s) (errors s) (isSubmitting s)
    (submitSuccess s) (showCamera s) v (cameraError s) (videoRef s)
    (canvasRef s) (liveTracks s) (pending s).

Definition setCameraError (v : option string) (s : State) : State :=
  mkState (currentStep s) (formData s) (documentFrontFile s)
    (documentBackFile s) (selfieFile s) (documentFrontPreview s)
    (documentBackPreview s) (selfiePreview s) (errors s) (isSubmitting s)
    (submitSuccess s) (showCamera s) (stream s) v (videoRef s) (canvasRef s)
    (liveTracks s) (pending s).

Definition set_videoRef (v : option Video) (s : State) : State :=
  mkState (currentStep s) (formData s) (documentFrontFile s)
    (documentBackFile s) (selfieFile s) (documentFrontPreview s)
    (documentBackPreview s) (selfiePreview s) (errors s) (isSubmitting s)
    (submitSuccess s) (showCamera s) (stream s) (cameraError s) v
    (canvasRef s) (liveTracks s) (pending s).

Definition set_canvasRef (v : option Canvas) (s : State) : State :=
  mkState (currentStep s) (formData s) (documentFrontFile s)
    (documentBackFile s) (selfieFile s) (documentFrontPreview s)
    (documentBackPreview s) (selfiePreview s) (errors s) (isSubmitting s)
    (submitSuccess s) (showCamera s) (stream s) (cameraError s) (videoRef s)
    v (liveTracks s) (pending s).

Definition set_liveTracks (v : gset MediaStream) (s : State) : State :=
  mkState (currentStep s) (formData s) (documentFrontFile s)
    (documentBackFile s) (selfieFile s) (documentFrontPreview s)
    (documentBackPreview s) (selfiePreview s) (errors s) (isSubmitting s)
    (submitSuccess s) (showCamera s) (stream s) (cameraError s) (videoRef s)
    (canvasRef s) v (pending s).

Definition set_pending (v : list Task) (s : State) : State :=
  mkState (currentStep s) (formData s) (documentFrontFile s)
    (documentBackFile s) (selfieFile s) (documentFrontPreview s)
    (documentBackPreview s) (selfiePreview s) (errors s) (isSubmitting s)
    (submitSuccess s) (showCamera s) (stream s) (cameraError s) (videoRef s)
    (canvasRef s) (liveTracks s) v.

(** [setErrors(prev => f(prev))]. *)
Definition updateErrors (f : JS.obj -> JS.obj) (s : State) : State :=
  setErrors (f (errors s)) s.

Definition add_task (t : Task) (s : State) : State :=
  set_pending (pending s ++ [t]) s.

(** [stream.getTracks().forEach(track => track.stop())]. *)
Definition stop_tracks (m : MediaStream) (s : State) : State :=
  set_liveTracks (liveTracks s ∖ {[m]}) s.

(** ** Validator *)

Definition validateStep1 (s : State) : State * bool :=
  let newErrors : JS.obj := ∅ in
  let newErrors :=
    if negb (JS.truthy (country (formData s)))
    then <["country" := Some "Country is required"]> newErrors
    else newErrors in
  let newErrors :=
    if negb (bool_decide (is_Some (documentFrontFile s)))
    then <["documentFront" :=
             Some "Please upload the front of your document"]> newErrors
    else newErrors in
  let newErrors :=
    if bool_decide (documentType_value (documentType (formData s))
                      ∈ ["id_card"; "drivers_license"])
       && negb (bool_decide (is_Some (documentBackFile s)))
    then <["documentBack" :=
             Some "Please upload the back of your document"]> newErrors
    else newErrors in
  (setErrors newErrors s, JS.no_keys newErrors).

Definition validateStep2 (s : State) : State * bool :=
  let newErrors : JS.obj := ∅ in
  let newErrors :=
    if negb (bool_decide (is_Some (selfieFile s)))
    then <["selfie" := Some "Please capture a selfie"]> newErrors
    else newErrors in
  (setErrors newErrors s, JS.no_keys newErrors).

(** ** Form state holder *)

(** The element an input event comes from: the component attaches
    [handleInputChange] to the document-type [<select>] and to the country
    [<input>]. *)
Inductive InputTarget :=
| SelectDocumentType (value : DocumentType)
| InputCountry (value : string).

Definition target_name (t : InputTarget) : string :=
  match t with
  | SelectDocumentType _ => "documentType"
  | InputCountry _ => "country"
  end.

Definition handleInputChange (t : InputTarget) (s : State) : State :=
  let name := target_name t in
  let s1 :=
    setFormData
      match t with
      | SelectDocumentType value =>
          {| documentType := value; country := country (formData s) |}
      | InputCountry value =>
          {| documentType := documentType (formData s); country := value |}
      end s in
  if JS.truthy_opt (JS.get (errors s) name)
  then updateErrors (fun prev => <[name := None]> prev) s1
  else s1.

(** ** File intake *)

Definition max_file_size : N := 5 * 1024 * 1024.

(** The computed property name of the size error,
    [`document${type.charAt(0).toUpperCase() + type.slice(1)}`]. *)
Definition size_error_key (type : Slot) : string :=
  "document" +:+
  (JS.toUpperCase (JS.charAt0 (slot_value type)) +:+
   JS.slice1 (slot_value type)).

Definition handleFileUpload (file : option File) (type : Slot) (s : State)
  : State :=
  match file with
  | Some f =>
      if (max_file_size <? file_size f)%N
      then updateErrors
             (fun prev => <[size_error_key type :=
                              Some "File size must be less than 5MB"]> prev) s
      else add_task (ReaderTask f type) s
  | None => s
  end.

(** [reader.onloadend]; [result] is [reader.result], null when the read
    failed. *)
Definition reader_onloadend (file : File) (type : Slot)
    (result : option string) (s : State) : State :=
  match type with
  | front =>
      updateErrors (fun prev => <["documentFront" := None]> prev)
        (setDocumentFrontPreview result
           (setDocumentFrontFile (Some file) s))
  | back =>
      updateErrors (fun prev => <["documentBack" := None]> prev)
        (setDocumentBackPreview result
           (setDocumentBackFile (Some file) s))
  end.

(** The two remove buttons of step 1. *)
Definition clearFront (s : State) : State :=
  setDocumentFrontPreview None (setDocumentFrontFile None s).

Definition clearBack (s : State) : State :=
  setDocumentBackPreview None (setDocumentBackFile None s).

(** ** Camera capture *)

(** What [startCamera] reads from [navigator] and [window.location]. *)
Record Navigator := mkNavigator {
  mediaDevices : bool;
  mediaDevices_getUserMedia : bool;
  webkitGetUserMedia : bool;
  mozGetUserMedia : bool;
  msGetUserMedia : bool;
  userAgent : string;
  location_protocol : string;
  location_hostname : string
}.

Definition unsupported_message : string :=
  "Camera API not supported in this browser. For Android devices, please try Chrome, Firefox, or Samsung Internet Browser.".

Definition android_https_message : string :=
  "Camera access on Android requires HTTPS. Please use a secure connection or try a different browser.".

(** The checks of [startCamera] before it asks for the device: the error
    they throw, if any. *)
Definition startCamera_checks (nav : Navigator) : option JsError :=
  if negb (mediaDevices nav) then
    if negb (webkitGetUserMedia nav) && negb (mozGetUserMedia nav)
       && negb (msGetUserMedia nav)
    then Some (new_Error unsupported_message)
    else Some (new_Error unsupported_message)
  else if negb (mediaDevices_getUserMedia nav) then
    Some (new_Error unsupported_message)
  else if JS.test_Android_i (userAgent nav)
          && (negb (String.eqb (location_protocol nav) "https:")
              && negb (String.eqb (location_hostname nav) "localhost"))
  then Some (new_Error android_https_message)
  else None.

Definition constraintsOptions : list MediaStreamConstraints :=
  [ {| video := VideoTrack "user"
                  (Some (mkRange None (Some 1280) None))
                  (Some (mkRange None (Some 720) None));
       audio := false |};
    {| video := VideoTrack "user"
                  (Some (mkRange (Some 640) (Some 1280) (Some 1920)))
                  (Some (mkRange (Some 480) (Some 720) (Some 1080)));
       audio := false |};
    {| video := VideoTrack "user" None None; audio := false |};
    {| video := VideoFlag true; audio := false |} ].

(** One round of answers of [navigator.mediaDevices.getUserMedia]: a stream,
    or the error the promise is rejected with. *)
Definition GetUserMedia : Type :=
  MediaStreamConstraints -> MediaStream + JsError.

(** The local variables of the acquisition loop, with the calls made and
    the warnings written to the console. *)
Record Attempts := mkAttempts {
  mediaStream : option MediaStream;
  lastError : option JsError;
  calls : list MediaStreamConstraints;
  warnings : list (MediaStreamConstraints * JsError)
}.

Definition no_attempts : Attempts :=
  {| mediaStream := None; lastError := None; calls := []; warnings := [] |}.

(** [for (const constraints of constraintsOptions) { try { ...; break }
    catch (error) { lastError = error; console.warn(...) } }]. *)
Fixpoint acquire (gum : GetUserMedia) (options : list MediaStreamConstraints)
    (a : Attempts) : Attempts :=
  match options with
  | [] => a
  | constraints :: rest =>
      match gum constraints with
      | inl m =>
          {| mediaStream := Some m; lastError := lastError a;
             calls := calls a ++ [constraints]; warnings := warnings a |}
      | inr error =>
          acquire gum rest
            {| mediaStream := mediaStream a; lastError := Some error;
               calls := calls a ++ [constraints];
               warnings := warnings a ++ [(constraints, error)] |}
      end
  end.

(** The message built in the [catch] block of [startCamera]. *)
Definition camera_error_message (err : JsError) : string :=
  let name := err_name err in
  let message := err_message err in
  "Unable to access camera. " +:+
  (if String.eqb name "NotAllowedError"
      || String.eqb name "PermissionDeniedError" then
     "Please allow camera permissions in your browser settings."
   else if String.eqb name "NotFoundError"
           || String.eqb name "OverconstrainedError" then
     "No camera found on this device."
   else if String.eqb name "NotReadableError"
           || String.eqb name "TrackStartError" then
     "Camera is already in use by another application."
   else if JS.truthy message && JS.includes message "secure context" then
     "Camera access requires a secure context (HTTPS). Please ensure you are using HTTPS."
   else if JS.truthy message
           && JS.includes message "supported in this browser" then
     unsupported_message
   else if JS.truthy message && JS.includes message "HTTPS" then
     android_https_message
   else
     "Please check your camera connection and try again. Error: "
     +:+ JS.or_else message name).

Definition startCamera_catch (err : JsError) (s : State) : State :=
  let errorMessage := camera_error_message err in
  setShowCamera false
    (updateErrors (fun prev => <["selfie" := Some errorMessage]> prev)
       (setCameraError (Some errorMessage) s)).

(** [startCamera] up to its first [await]: the two state updates, the
    checks, and either the [catch] block or the suspension on
    [getUserMedia]. *)
Definition startCamera (nav : Navigator) (s : State) : State :=
  let s1 := setShowCamera true (setCameraError None s) in
  match startCamera_checks nav with
  | Some err => startCamera_catch err s1
  | None => add_task AcquireTask s1
  end.

(** The stream is bound to the video element, which starts loading it
    anew. *)
Definition bind_video (m : MediaStream) (s : State) : State :=
  match videoRef s with
  | Some v =>
      let s1 :=
        match srcObject v with
        | Some oldStream => stop_tracks oldStream s
        | None => s
        end in
      set_videoRef
        (Some {| srcObject := Some m; videoWidth := 0; videoHeight := 0 |})
        s1
  | None => s
  end.

(** The rest of [startCamera], run when the browser has answered the
    requests of the loop. *)
Definition startCamera_resume (gum : GetUserMedia) (s : State) : State :=
  let a := acquire gum constraintsOptions no_attempts in
  match mediaStream a with
  | None =>
      match lastError a with
      | Some err => startCamera_catch err s
      | None => s
      end
  | Some m =>
      bind_video m
        (setStream (Some m) (set_liveTracks ({[m]} ∪ liveTracks s) s))
  end.

Definition video_error_message : string :=
  "Error starting camera. Please try again or use a different browser.".

(** [video.onloadeddata]: the frame size is known, and [play()] is called. *)
Definition video_onloadeddata (w h : N) (play_ok : bool) (s : State)
  : State :=
  match videoRef s with
  | Some v =>
      let s1 :=
        set_videoRef
          (Some {| srcObject := srcObject v;
                   videoWidth := w; videoHeight := h |}) s in
      if play_ok then s1 else setCameraError (Some video_error_message) s1
  | None => s
  end.

Definition video_onerror (s : State) : State :=
  setCameraError (Some video_error_message) s.

(** [stopCamera] as a closure over the [stream] of the render that created
    it. *)
Definition stopCamera (closure_stream : option MediaStream) (s : State)
  : State :=
  let s1 :=
    match closure_stream with
    | Some m => setStream None (stop_tracks m s)
    | None => s
    end in
  setCameraError None (setShowCamera false s1).

(** [canvas.toDataURL(type)]: a data URL, [data:,] for a canvas without
    pixels; [payload] is the encoded image in base 64. *)
Definition toDataURL (canvas : Canvas) (type payload : string) : string :=
  if (canvas_width canvas =? 0)%N || (canvas_height canvas =? 0)%N
  then "data:,"
  else "data:" +:+ type +:+ ";base64," +:+ payload.

(** What the canvas does when [capturePhoto] draws on it. *)
Record CaptureEnv := mkCaptureEnv {
  getContext_2d : bool;
  drawImage_throws : option JsError
}.

Definition jpeg_quality : QArith_base.Q := QArith_base.Qmake 9 10.

Definition capture_failure (err : JsError) (s : State) : State :=
  setCameraError
    (Some ("Error capturing photo: "
           +:+ JS.or_else (err_message err) "Unknown error")) s.

Definition capturePhoto (env : CaptureEnv) (s : State) : State :=
  match videoRef s, canvasRef s with
  | Some v, Some _ =>
      if (videoWidth v =? 0)%N || (videoHeight v =? 0)%N then
        setCameraError
          (Some "Camera stream not ready. Please wait a moment and try again.")
          s
      else
        let canvas :=
          {| canvas_width := videoWidth v;
             canvas_height := videoHeight v |} in
        let s1 := set_canvasRef (Some canvas) s in
        if negb (getContext_2d env) then
          capture_failure (new_Error "Unable to get canvas context") s1
        else
          match drawImage_throws env with
          | Some err => capture_failure err s1
          | None =>
              add_task (BlobTask canvas "image/jpeg" jpeg_quality (stream s))
                s1
          end
  | _, _ =>
      setCameraError (Some "Camera elements not ready. Please try again.") s
  end.

(** The callback given to [canvas.toBlob]: [encoded] is the size of the
    blob, or nothing when the encoder gives null. *)
Definition toBlob_callback (canvas : Canvas) (type : string)
    (quality : QArith_base.Q) (closure_stream : option MediaStream)
    (encoded : option N) (payload : string) (s : State) : State :=
  match encoded with
  | None =>
      setCameraError (Some "Failed to capture image. Please try again.") s
  | Some n =>
      let blob :=
        {| blob_type := type; blob_quality := quality;
           blob_source := canvas; blob_size := n |} in
      let file := new_File blob "selfie.jpg" "image/jpeg" in
      updateErrors (fun prev => <["selfie" := None]> prev)
        (stopCamera closure_stream
           (setSelfiePreview (Some (toDataURL canvas "image/jpeg" payload))
              (setSelfieFile (Some file) s)))
  end.

(** The remove button of the selfie preview. *)
Definition removeSelfie (nav : Navigator) (s : State) : State :=
  startCamera nav (setSelfiePreview None (setSelfieFile None s)).

(** ** Submission stub, navigation, reset *)

Definition handleSubmit (s : State) : State :=
  add_task SubmitTimer (setIsSubmitting true s).

(** The callback of the submission timer. *)
Definition submit_done (s : State) : State :=
  setSubmitSuccess true (setIsSubmitting false s).

Definition handleNext (s : State) : State :=
  if currentStep s =? 1 then
    let '(s1, ok) := validateStep1 s in
    if ok then
      let s2 := setCurrentStep 2 s1 in
      if negb (showCamera s) && negb (bool_decide (is_Some (selfieFile s)))
      then add_task StartCameraTimer s2
      else s2
    else s1
  else if currentStep s =? 2 then
    let '(s1, ok) := validateStep2 s in
    if ok then handleSubmit s1 else s1
  else s.

Definition handlePrevious (s : State) : State :=
  setCurrentStep (currentStep s - 1) s.

(** [resetForm] as a closure over the [stream] of the render that created
    it. *)
Definition resetForm (closure_stream : option MediaStream) (s : State)
  : State :=
  let s1 :=
    setCameraError None
      (setSubmitSuccess false
         (setErrors ∅
            (setSelfiePreview None
               (setDocumentBackPreview None
                  (setDocumentFrontPreview None
                     (setSelfieFile None
                        (setDocumentBackFile None
                           (setDocumentFrontFile None
                              (setFormData
                                 {| documentType := passport;
                                    country := EmptyString |}
                                 (setCurrentStep 1 s)))))))))) in
  let s2 :=
    match closure_stream with
    | Some m => setStream None (stop_tracks m s1)
    | None => s1
    end in
  setShowCamera false s2.

(** ** Rendering *)

(** The conditions under which the JSX shows each part of the page. *)
Definition form_rendered (s : State) : bool := negb (submitSuccess s).

Definition step1_rendered (s : State) : bool :=
  form_rendered s && (currentStep s =? 1).

Definition step2_rendered (s : State) : bool :=
  form_rendered s && (currentStep s =? 2).

Definition needs_back (s : State) : bool :=
  bool_decide (documentType_value (documentType (formData s))
                 ∈ ["id_card"; "drivers_license"]).

Definition camera_rendered (s : State) : bool :=
  step2_rendered s && showCamera s.

(** After a handler has run, React renders again: the cleanup of the
    effect on [stream] stops the tracks of the stream that was replaced,
    and the video and canvas elements exist exactly while the camera panel
    is shown. *)
Definition effect_cleanup (before after : State) : State :=
  match stream before with
  | Some m =>
      if bool_decide (stream after = Some m) then after
      else stop_tracks m after
  | None => after
  end.

Definition update_refs (before after : State) : State :=
  if camera_rendered after then
    if camera_rendered before then after
    else set_canvasRef (Some fresh_canvas)
           (set_videoRef (Some fresh_video) after)
  else set_canvasRef None (set_videoRef None after).

Definition commit (before after : State) : State :=
  update_refs before (effect_cleanup before after).

(** ** The component as a transition system *)

(** What the browser delivers when it resumes a suspended callback. *)
Inductive Outcome :=
| ReaderResult (result : option string)
| MediaResult (gum : GetUserMedia)
| BlobResult (encoded : option N) (payload : string)
| TimerElapsed.

Inductive Event :=
| ChangeInput (t : InputTarget)
| ChooseFile (type : Slot) (file : option File)
| ClickRemoveFront
| ClickRemoveBack
| ClickNext
| ClickPrevious
| ClickStartCamera
| ClickCapture (env : CaptureEnv)
| ClickCancel
| ClickRemoveSelfie
| ClickSubmitAnother
| VideoLoadedData (w h : N) (play_ok : bool)
| VideoError
| Resume (i : nat) (o : Outcome).

(** An event can happen only while the element it comes from is on the
    page (and enabled); a callback only while it is suspended. *)
Definition enabled (s : State) (e : Event) : bool :=
  match e with
  | ChangeInput _ => step1_rendered s
  | ChooseFile front _ =>
      step1_rendered s && negb (JS.truthy_opt (documentFrontPreview s))
  | ChooseFile back _ =>
      step1_rendered s && needs_back s
      && negb (JS.truthy_opt (documentBackPreview s))
  | ClickRemoveFront =>
      step1_rendered s && JS.truthy_opt (documentFrontPreview s)
  | ClickRemoveBack =>
      step1_rendered s && needs_back s
      && JS.truthy_opt (documentBackPreview s)
  | ClickNext => form_rendered s && negb (isSubmitting s)
  | ClickPrevious => form_rendered s && (1 <? currentStep s)
  | ClickStartCamera =>
      step2_rendered s && negb (showCamera s)
      && negb (JS.truthy_opt (selfiePreview s))
  | ClickCapture _ =>
      camera_rendered s && bool_decide (is_Some (stream s))
  | ClickCancel => camera_rendered s
  | ClickRemoveSelfie =>
      step2_rendered s && negb (showCamera s)
      && JS.truthy_opt (selfiePreview s)
  | ClickSubmitAnother => submitSuccess s
  | VideoLoadedData _ _ _ | VideoError =>
      match videoRef s with
      | Some v => bool_decide (is_Some (srcObject v))
      | None => false
      end
  | Resume i o =>
      match pending s !! i, o with
      | Some (ReaderTask _ _), ReaderResult _ => true
      | Some AcquireTask, MediaResult _ => true
      | Some (BlobTask _ _ _ _), BlobResult _ _ => true
      | Some StartCameraTimer, TimerElapsed => true
      | Some SubmitTimer, TimerElapsed => true
      | _, _ => false
      end
  end.

(** The handler of an event, before the next render. *)
Definition handle (nav : Navigator) (e : Event) (s : State) : State :=
  match e with
  | ChangeInput t => handleInputChange t s
  | ChooseFile type file => handleFileUpload file type s
  | ClickRemoveFront => clearFront s
  | ClickRemoveBack => clearBack s
  | ClickNext => handleNext s
  | ClickPrevious => handlePrevious s
  | ClickStartCamera => startCamera nav s
  | ClickCapture env => capturePhoto env s
  | ClickCancel => stopCamera (stream s) s
  | ClickRemoveSelfie => removeSelfie nav s
  | ClickSubmitAnother => resetForm (stream s) s
  | VideoLoadedData w h play_ok => video_onloadeddata w h play_ok s
  | VideoError => video_onerror s
  | Resume i o =>
      let s1 := set_pending (delete i (pending s)) s in
      match pending s !! i, o with
      | Some (ReaderTask file type), ReaderResult result =>
          reader_onloadend file type result s1
      | Some AcquireTask, MediaResult gum => startCamera_resume gum s1
      | Some (BlobTask canvas type quality closure_stream),
        BlobResult encoded payload =>
          toBlob_callback canvas type quality closure_stream encoded payload
            s1
      | Some StartCameraTimer, TimerElapsed => startCamera nav s1
      | Some SubmitTimer, TimerElapsed => submit_done s1
      | _, _ => s
      end
  end.

Definition step (nav : Navigator) (s : State) (e : Event) : option State :=
  if enabled s e then Some (commit s (handle nav e s)) else None.

(** Running a sequence of events from a state. *)
Fixpoint run (nav : Navigator) (s : State) (es : list Event)
  : option State :=
  match es with
  | [] => Some s
  | e :: rest =>
      match step nav s e with
      | Some s' => run nav s' rest
      | None => None
      end
  end.

Inductive reachable (nav : Navigator) : State -> Prop :=
| reachable_initial : reachable nav initial
| reachable_step s e s' :
    reachable nav s -> step nav s e = Some s' -> reachable nav s'.

(** The invariant of the data model: the camera panel and the selfie
    preview are not shown together. *)
Definition panel_xor_preview (s : State) : Prop :=
  ¬ (showCamera s = true ∧ JS.truthy_opt (selfiePreview s) = true).

(** ** Observations used in the statements *)

(** The stored file, the preview and the error property of a slot. *)
Definition slot_file (type : Slot) (s : State) : option File :=
  match type with
  | front => documentFrontFile s
  | back => documentBackFile s
  end.

Definition slot_preview (type : Slot) (s : State) : option string :=
  match type with
  | front => documentFrontPreview s
  | back => documentBackPreview s
  end.

Definition slot_error_key (type : Slot) : string :=
  match type with
  | front => "documentFront"
  | back => "documentBack"
  end.

(** The two messages with which [capturePhoto] refuses to take a picture. *)
Definition not_ready_messages : list string :=
  [ "Camera elements not ready. Please try again.";
    "Camera stream not ready. Please wait a moment and try again." ].

(** The video element reports a frame without width or without height. *)
Definition frame_size_zero (s : State) : Prop :=
  ∃ v, videoRef s = Some v ∧ (videoWidth v = 0%N ∨ videoHeight v = 0%N).

(** Every property of the capture that [capturePhoto] checks holds. *)
Definition capture_ready (env : CaptureEnv) (s : State) : bool :=
  match videoRef s, canvasRef s with
  | Some v, Some _ =>
      negb ((videoWidth v =? 0)%N || (videoHeight v =? 0)%N)
      && getContext_2d env
      && negb (bool_decide (is_Some (drawImage_throws env)))
  | _, _ => false
  end.

(** ** Concrete data for the examples *)

Definition desktop : Navigator :=
  {| mediaDevices := true; mediaDevices_getUserMedia := true;
     webkitGetUserMedia := false; mozGetUserMedia := false;
     msGetUserMedia := false;
     userAgent := "Mozilla/5.0 (X11; Linux x86_64)";
     location_protocol := "https:"; location_hostname := "kyc.example" |}.

Definition scan_png : File :=
  {| file_name := "passport.png"; file_type := "image/png";
     file_size := 1024; file_body := Picked 1 |}.

Definition huge_png : File :=
  {| file_name := "huge.png"; file_type := "image/png";
     file_size := 5 * 1024 * 1024 + 1; file_body := Picked 2 |}.

(** The state after a click on Next on the empty form. *)
Definition after_failed_validation : State := (validateStep1 initial).1.

Definition overconstrained : JsError :=
  {| err_name := "OverconstrainedError";
     err_message := "Constraints could not be satisfied" |}.

Definition not_allowed : JsError :=
  {| err_name := "NotAllowedError"; err_message := "Permission denied" |}.

Definition bare_video : MediaStreamConstraints :=
  {| video := VideoFlag true; audio := false |}.

(** A camera that only accepts the request without constraints. *)
Definition plain_camera : GetUserMedia :=
  fun constraints =>
    match video constraints with
    | VideoFlag true => inl 7%nat
    | _ => inr overconstrained
    end.

(** A browser that refuses the last request for another reason than the
    first three. *)
Definition refusing_browser : GetUserMedia :=
  fun constraints =>
    match video constraints with
    | VideoFlag _ => inr not_allowed
    | _ => inr overconstrained
    end.

(** A camera that accepts every request. *)
Definition webcam : GetUserMedia := fun _ => inl 7%nat.

(** ** Invariants of the reachable states *)

(** Every stream with live tracks is the one held in [stream]. *)
Definition live_owned (s : State) : Prop :=
  ∀ m, m ∈ liveTracks s -> stream s = Some m.

(** A video element without a stream reports no frame size, and a video
    element is bound to a stream only while [stream] holds one. *)
Definition video_bound (s : State) : Prop :=
  ∀ v, videoRef s = Some v ->
       (srcObject v = None -> videoWidth v = 0%N ∧ videoHeight v = 0%N)
       ∧ (is_Some (srcObject v) -> is_Some (stream s)).

(** The handlers of the form leave the camera session as it is. *)
Definition camera_unchanged (a b : State) : Prop :=
  showCamera a = showCamera b
  ∧ stream a = stream b
  ∧ liveTracks a = liveTracks b
  ∧ videoRef a = videoRef b
  ∧ selfiePreview a = selfiePreview b.

(** The events whose handler leaves the camera session as it is: those of
    the form, a capture attempt (which at most starts an encoding) and an
    error of the video element. *)
Definition quiet_event (s : State) (e : Event) : bool :=
  match e with
  | ChangeInput _ | ChooseFile _ _ | ClickRemoveFront | ClickRemoveBack
  | ClickNext | ClickPrevious | ClickCapture _ | VideoError => true
  | Resume i _ =>
      match pending s !! i with
      | Some (ReaderTask _ _) | Some SubmitTimer => true
      | _ => false
      end
  | _ => false
  end.

(** The clicks and callbacks that bring the form to the selfie step with
    the camera streaming. *)
Definition to_streaming : list Event :=
  [ ChangeInput (InputCountry "France");
    ChooseFile front (Some scan_png);
    Resume 0 (ReaderResult (Some "data:image/png;base64,iVBORw0KGgo="));
    ClickNext;
    Resume 0 TimerElapsed;
    Resume 0 (MediaResult webcam);
    VideoLoadedData 640 480 true ].

Definition streaming : State :=
  default initial (run desktop initial to_streaming).

(** The callback of the timer that [handleNext] sets to start the camera. *)
Definition deferred_start (s : State) (e : Event) : bool :=
  match e with
  | Resume i TimerElapsed =>
      match pending s !! i with
      | Some StartCameraTimer => true
      | _ => false
      end
  | _ => false
  end.

(** A selfie taken between the click on Next and the timer it sets. *)
Definition capture_before_timer : list Event :=
  [ ChangeInput (InputCountry "France");
    ChooseFile front (Some scan_png);
    Resume 0 (ReaderResult (Some "data:image/png;base64,iVBORw0KGgo="));
    ClickNext;
    ClickStartCamera;
    Resume 1 (MediaResult webcam);
    VideoLoadedData 640 480 true;
    ClickCapture (mkCaptureEnv true None);
    Resume 1 (BlobResult (Some 48213%N) "/9j/4AAQSkZJRgABAQ==");
    Resume 0 TimerElapsed ].

(** ** Observations for the properties of the whole component *)

(** What [validateStep1] asks of the form. *)
Definition documents_valid (s : State) : Prop :=
  country (formData s) ≠ EmptyString
  ∧ is_Some (documentFrontFile s)
  ∧ (needs_back s = true -> is_Some (documentBackFile s)).

(** The number of suspended callbacks of the submission timer. *)
Definition is_submit_timer (t : Task) : bool :=
  match t with
  | SubmitTimer => true
  | _ => false
  end.

Fixpoint submit_timers (tasks : list Task) : nat :=
  match tasks with
  | [] => 0
  | t :: rest => (if is_submit_timer t then 1 else 0) + submit_timers rest
  end.

(** A browser without [navigator.mediaDevices] that still has the prefixed
    function. *)
Definition legacy_browser : Navigator :=
  {| mediaDevices := false; mediaDevices_getUserMedia := false;
     webkitGetUserMedia := true; mozGetUserMedia := false;
     msGetUserMedia := false;
     userAgent := "Mozilla/5.0 (Linux; U; Android 4.0.3)";
     location_protocol := "https:"; location_hostname := "kyc.example" |}.

(** A browser that refuses every request. *)
Definition denying_browser : GetUserMedia := fun _ => inr not_allowed.

(** The video and canvas elements exist exactly while the camera panel is
    on the page. *)
Definition refs_mounted (s : State) : Prop :=
  if camera_rendered s
  then is_Some (videoRef s) ∧ is_Some (canvasRef s)
  else videoRef s = None ∧ canvasRef s = None.

(** The step is one of the two steps of the form, and the second one is
    shown only over valid documents. *)
Definition step_gated (s : State) : Prop :=
  (currentStep s = 1 ∨ currentStep s = 2)
  ∧ (currentStep s = 2 -> documents_valid s).

(** One submission at a time: the submission timer is suspended exactly
    while [isSubmitting] is set, and not after the success. *)
Definition one_submission (s : State) : Prop :=
  submit_timers (pending s) = (if isSubmitting s then 1 else 0)%nat
  ∧ (submitSuccess s = true -> isSubmitting s = false).

(** The stream shown by the video element is the one held in [stream]. *)
Definition video_follows_stream (s : State) : Prop :=
  ∀ v m, videoRef s = Some v -> srcObject v = Some m -> stream s = Some m.

(** The clicks and callbacks from the streaming camera to a captured
    selfie, and on to the success page. *)
Definition to_captured : list Event :=
  (to_streaming
   ++ [ ClickCapture (mkCaptureEnv true None);
        Resume 0 (BlobResult (Some 48213%N) "/9j/4AAQSkZJRgABAQ==") ])%list.

Definition captured : State :=
  default initial (run desktop initial to_captured).

Definition to_success : list Event :=
  (to_captured ++ [ ClickNext; Resume 0 TimerElapsed ])%list.

Definition submitted : State :=
  default initial (run desktop initial to_success).

(** The camera while the browser has not answered yet. *)
Definition requesting : State :=
  default initial (run desktop initial (take 5 to_streaming)).

(** A second front file chosen before the first one is decoded, its
    decoding still suspended on the success page. *)
Definition to_success_decoding : list Event :=
  [ ChangeInput (InputCountry "France");
    ChooseFile front (Some scan_png);
    ChooseFile front (Some scan_png);
    Resume 0 (ReaderResult (Some "data:image/png;base64,iVBORw0KGgo="));
    ClickNext;
    Resume 1 TimerElapsed;
    Resume 1 (MediaResult webcam);
    VideoLoadedData 640 480 true;
    ClickCapture (mkCaptureEnv true None);
    Resume 1 (BlobResult (Some 48213%N) "/9j/4AAQSkZJRgABAQ==");
    ClickNext;
    Resume 1 TimerElapsed ].

Definition submitted_decoding : State :=
  default initial (run desktop initial to_success_decoding).

(** Step 2 with the camera panel closed again by a click on Cancel: the
    page shows the button that starts the camera. *)
Definition camera_cancelled : State :=
  default initial (run desktop initial (to_streaming ++ [ClickCancel])%list).

(** * Properties *)

#[local] Set Warnings "-clear-no-such-hyp".

(** Projections of states built by setters. *)
Ltac simpl_state :=
  cbn [currentStep formData documentFrontFile documentBackFile selfieFile
       documentFrontPreview documentBackPreview selfiePreview errors
       isSubmitting submitSuccess showCamera stream cameraError videoRef
       canvasRef liveTracks pending
       updateErrors add_task stop_tracks
       setCurrentStep setFormData setDocumentFrontFile setDocumentBackFile
       setSelfieFile setDocumentFrontPreview setDocumentBackPreview
       setSelfiePreview setErrors setIsSubmitting setSubmitSuccess
       setShowCamera setStream setCameraError set_videoRef set_canvasRef
       set_liveTracks set_pending] in *.

(** The bodies of the handlers. *)
Ltac open_handlers :=
  unfold handleInputChange, handleFileUpload, reader_onloadend, clearFront,
    clearBack, handlePrevious, handleSubmit, submit_done, removeSelfie,
    startCamera, startCamera_catch, bind_video, capturePhoto,
    capture_failure, toBlob_callback, stopCamera, resetForm,
    video_onloadeddata, video_onerror in *.

(** Projections of a state after a render. *)
Ltac unfold_commit :=
  unfold commit, update_refs, effect_cleanup, stop_tracks;
  repeat case_match; reflexivity.

(** Two states with the same components are the same state. *)
Lemma State_eq (a b : State) :
  currentStep a = currentStep b -> formData a = formData b ->
  documentFrontFile a = documentFrontFile b ->
  documentBackFile a = documentBackFile b ->
  selfieFile a = selfieFile b ->
  documentFrontPreview a = documentFrontPreview b ->
  documentBackPreview a = documentBackPreview b ->
  selfiePreview a = selfiePreview b ->
  errors a = errors b -> isSubmitting a = isSubmitting b ->
  submitSuccess a = submitSuccess b -> showCamera a = showCamera b ->
  stream a = stream b -> cameraError a = cameraError b ->
  videoRef a = videoRef b -> canvasRef a = canvasRef b ->
  liveTracks a = liveTracks b -> pending a = pending b ->
  a = b.
Proof. destruct a, b. cbn. intros. by subst. Qed.

(** ** Dictionaries *)

Lemma no_keys_empty : JS.no_keys ∅ = true.
Proof. reflexivity. Qed.

Lemma no_keys_insert (k : string) (v : option string) (o : JS.obj) :
  JS.no_keys (<[k := v]> o) = false.
Proof.
  unfold JS.no_keys. apply bool_decide_eq_false.
  rewrite map_size_empty_iff. apply insert_non_empty.
Qed.

Lemma get_insert_eq (k : string) (v : option string) (o : JS.obj) :
  JS.get (<[k := v]> o) k = v.
Proof. unfold JS.get. by rewrite lookup_insert_eq. Qed.

Lemma get_insert_ne (k k' : string) (v : option string) (o : JS.obj) :
  k ≠ k' -> JS.get (<[k := v]> o) k' = JS.get o k'.
Proof. intros Hne. unfold JS.get. by rewrite lookup_insert_ne. Qed.

Lemma truthy_spec (s : string) : JS.truthy s = true ↔ s ≠ EmptyString.
Proof. destruct s; simpl; split; congruence. Qed.

Lemma is_Some_decide {A} (o : option A) :
  bool_decide (is_Some o) = true ↔ is_Some o.
Proof. apply bool_decide_eq_true. Qed.

(** ** Validator *)

Example size_error_key_front : size_error_key front = "documentFront".
Proof. reflexivity. Qed.

Example size_error_key_back : size_error_key back = "documentBack".
Proof. reflexivity. Qed.

Lemma size_error_key_slot (type : Slot) :
  size_error_key type = slot_error_key type.
Proof. by destruct type. Qed.

Lemma needs_back_spec (d : DocumentType) :
  documentType_value d ∈ ["id_card"; "drivers_license"] ↔
  d = id_card ∨ d = drivers_license.
Proof.
  rewrite !elem_of_cons, elem_of_nil.
  destruct d; simpl; split; intros H; auto;
    destruct H as [H | [H | H]] || destruct H as [H | H];
    try discriminate H; try contradiction.
Qed.

Lemma needs_back_bool (d : DocumentType) :
  bool_decide (documentType_value d ∈ ["id_card"; "drivers_license"]) =
  match d with
  | passport => false
  | id_card | drivers_license => true
  end.
Proof. destruct d; reflexivity. Qed.

Lemma is_Some_bool {A} (o : option A) :
  bool_decide (is_Some o) = match o with Some _ => true | None => false end.
Proof.
  destruct o.
  - apply bool_decide_eq_true. eauto.
  - apply bool_decide_eq_false. intros [? ?]. discriminate.
Qed.

(** C1.  [validateStep1] answers true exactly when the country is not
    empty, the front file is there and, for an identity card or a driving
    licence, the back file is there too; [validateStep2] answers true
    exactly when the selfie file is there. *)
Theorem validateStep_true_iff (s : State) :
  ((validateStep1 s).2 = true ↔
     country (formData s) ≠ EmptyString
     ∧ is_Some (documentFrontFile s)
     ∧ (documentType_value (documentType (formData s))
          ∉ ["id_card"; "drivers_license"]
        ∨ is_Some (documentBackFile s)))
  ∧ ((validateStep2 s).2 = true ↔ is_Some (selfieFile s)).
Proof.
  split.
  - unfold validateStep1. cbn [snd].
    rewrite needs_back_bool, !is_Some_bool.
    pose proof (needs_back_spec (documentType (formData s))) as Hnb.
    destruct (country (formData s)) as [|c cs];
      destruct (documentFrontFile s) as [ff|];
      destruct (documentBackFile s) as [bf|];
      destruct (documentType (formData s));
      cbn [JS.truthy negb andb];
      rewrite ?no_keys_insert, ?no_keys_empty;
      (split;
       [ try discriminate; intros _; repeat split; eauto;
         left; rewrite Hnb; intros [? | ?]; discriminate
       | intros (Hc & Hf & Hb); try reflexivity; try congruence;
         try (destruct Hf as [? ?]; discriminate);
         destruct Hb as [Hb | [? ?]]; try discriminate;
         exfalso; apply Hb, Hnb; auto ]).
  - unfold validateStep2. cbn [snd]. rewrite is_Some_bool.
    destruct (selfieFile s); cbn [negb];
      rewrite ?no_keys_insert, ?no_keys_empty; split;
      eauto; try discriminate.
    intros [? ?]. discriminate.
Qed.

(** ** Rendering keeps the form data *)

Lemma commit_documentFrontFile (b a : State) :
  documentFrontFile (commit b a) = documentFrontFile a.
Proof. unfold_commit. Qed.

Lemma commit_documentBackFile (b a : State) :
  documentBackFile (commit b a) = documentBackFile a.
Proof. unfold_commit. Qed.

Lemma commit_selfieFile (b a : State) :
  selfieFile (commit b a) = selfieFile a.
Proof. unfold_commit. Qed.

Lemma commit_documentFrontPreview (b a : State) :
  documentFrontPreview (commit b a) = documentFrontPreview a.
Proof. unfold_commit. Qed.

Lemma commit_documentBackPreview (b a : State) :
  documentBackPreview (commit b a) = documentBackPreview a.
Proof. unfold_commit. Qed.

Lemma commit_selfiePreview (b a : State) :
  selfiePreview (commit b a) = selfiePreview a.
Proof. unfold_commit. Qed.

Lemma commit_errors (b a : State) : errors (commit b a) = errors a.
Proof. unfold_commit. Qed.

Lemma commit_formData (b a : State) : formData (commit b a) = formData a.
Proof. unfold_commit. Qed.

Lemma commit_showCamera (b a : State) :
  showCamera (commit b a) = showCamera a.
Proof. unfold_commit. Qed.

Lemma commit_stream (b a : State) : stream (commit b a) = stream a.
Proof. unfold_commit. Qed.

Lemma commit_cameraError (b a : State) :
  cameraError (commit b a) = cameraError a.
Proof. unfold_commit. Qed.

Lemma commit_pending (b a : State) : pending (commit b a) = pending a.
Proof. unfold_commit. Qed.

Lemma commit_currentStep (b a : State) :
  currentStep (commit b a) = currentStep a.
Proof. unfold_commit. Qed.

Lemma commit_submitSuccess (b a : State) :
  submitSuccess (commit b a) = submitSuccess a.
Proof. unfold_commit. Qed.

Lemma commit_slot_file (type : Slot) (b a : State) :
  slot_file type (commit b a) = slot_file type a.
Proof.
  destruct type; [apply commit_documentFrontFile | apply commit_documentBackFile].
Qed.

Lemma commit_slot_preview (type : Slot) (b a : State) :
  slot_preview type (commit b a) = slot_preview type a.
Proof.
  destruct type;
    [apply commit_documentFrontPreview | apply commit_documentBackPreview].
Qed.

(** ** File intake *)

(** C2.  A file of more than 5 MiB is not stored: the file and the preview
    of the slot stay as they were, the slot gets the size error, and no
    decoding is started. *)
Theorem oversized_file_rejected (f : File) (type : Slot) (s : State) :
  (max_file_size < file_size f)%N ->
  let s' := handleFileUpload (Some f) type s in
  slot_file type s' = slot_file type s
  ∧ slot_preview type s' = slot_preview type s
  ∧ JS.get (errors s') (slot_error_key type)
    = Some "File size must be less than 5MB"
  ∧ pending s' = pending s.
Proof.
  intros Hbig. cbn zeta. unfold handleFileUpload.
  apply N.ltb_lt in Hbig. rewrite Hbig.
  rewrite size_error_key_slot. unfold updateErrors.
  repeat split; try (destruct type; reflexivity).
  cbn [errors setErrors]. apply get_insert_eq.
Qed.

Lemma oversized_file_rejected_witness :
  slot_file front (handleFileUpload (Some huge_png) front initial) = None
  ∧ JS.get (errors (handleFileUpload (Some huge_png) front initial))
      "documentFront"
    = Some "File size must be less than 5MB".
Proof.
  destruct (oversized_file_rejected huge_png front initial) as (Hf & _ & He & _).
  - reflexivity.
  - split; [exact Hf | exact He].
Defined.

Lemma reader_onloadend_slot (f : File) (type : Slot) (r : option string)
    (s : State) :
  let s' := reader_onloadend f type r s in
  slot_file type s' = Some f
  ∧ slot_preview type s' = r
  ∧ JS.get (errors s') (slot_error_key type) = None
  ∧ pending s' = pending s.
Proof.
  destruct type; cbn; repeat split; apply get_insert_eq.
Qed.

(** C3.  A file of at most 5 MiB starts a decoding and nothing else.
    When the reader ends, with the data URL or, after a failed read, with
    null, the callback stores the file in the slot, stores the result of
    the reader as the preview and clears the error of the slot: the
    preview is there exactly when the read succeeded, and after a failed
    read the file is stored without a preview. *)
Theorem accepted_file_stored (nav : Navigator) (f : File) (type : Slot)
    (s : State) :
  (file_size f <= max_file_size)%N ->
  handleFileUpload (Some f) type s = add_task (ReaderTask f type) s
  ∧ ∀ (s2 : State) (i : nat) (result : option string),
      pending s2 !! i = Some (ReaderTask f type) ->
      ∃ s', step nav s2 (Resume i (ReaderResult result)) = Some s'
            ∧ slot_file type s' = Some f
            ∧ slot_preview type s' = result
            ∧ (is_Some (slot_preview type s') ↔ is_Some result)
            ∧ JS.get (errors s') (slot_error_key type) = None
            ∧ pending s' = delete i (pending s2).
Proof.
  intros Hsmall. split.
  - unfold handleFileUpload.
    assert ((max_file_size <? file_size f)%N = false) as ->
        by (apply N.ltb_ge; exact Hsmall).
    reflexivity.
  - intros s2 i result Hi. eexists. split.
    + unfold step. cbn [enabled handle]. rewrite Hi. reflexivity.
    + rewrite commit_slot_file, commit_slot_preview, commit_errors,
        commit_pending.
      destruct (reader_onloadend_slot f type result
                  (set_pending (delete i (pending s2)) s2))
        as (H1 & H2 & H3 & H4).
      rewrite H2.
      split; [exact H1 |]. split; [reflexivity |]. split; [tauto |].
      split; [exact H3 | exact H4].
Qed.

Lemma accepted_file_stored_witness :
  ∃ s', step desktop (handleFileUpload (Some scan_png) front initial)
          (Resume 0 (ReaderResult None)) = Some s'
        ∧ slot_file front s' = Some scan_png
        ∧ slot_preview front s' = None
        ∧ JS.get (errors s') (slot_error_key front) = None.
Proof.
  destruct (accepted_file_stored desktop scan_png front initial) as [-> Hcb].
  - vm_compute. discriminate.
  - destruct (Hcb (add_task (ReaderTask scan_png front) initial) 0%nat None)
      as (s' & Hstep & Hfile & Hprev & _ & Herr & _); [reflexivity |].
    exists s'. repeat split; assumption.
Defined.

(** After a failed read of the front file the form holds a file that the
    page does not show: without a preview the remove button is not there
    and the file input still is, while the file is in the state. *)
Lemma failed_read_hides_file (nav : Navigator) (f : File) (s : State)
    (i : nat) :
  pending s !! i = Some (ReaderTask f front) ->
  ∃ s', step nav s (Resume i (ReaderResult None)) = Some s'
        ∧ documentFrontFile s' = Some f
        ∧ enabled s' ClickRemoveFront = false
        ∧ enabled s' (ChooseFile front (Some f)) = step1_rendered s.
Proof.
  intros Hi. eexists.
  split; [unfold step; cbn [enabled handle]; by rewrite Hi |].
  cbn [enabled]. unfold step1_rendered, form_rendered.
  rewrite commit_documentFrontFile, commit_documentFrontPreview,
    commit_currentStep, commit_submitSuccess.
  cbn [reader_onloadend]. simpl_state. cbn [JS.truthy_opt negb].
  rewrite andb_false_r, andb_true_r. repeat split.
Qed.

(** A read that fails ends with [loadend] too: the file is stored without
    a preview. *)
Lemma reader_onloadend_failed (f : File) (type : Slot) (s : State) :
  let s' := reader_onloadend f type None s in
  slot_file type s' = Some f ∧ slot_preview type s' = None.
Proof. destruct type; split; reflexivity. Qed.

(** ** Form state holder *)

(** C10.  [handleInputChange] clears the error recorded for the field that
    changed, and touches neither the errors of the other fields and slots
    nor the files and previews. *)
Theorem handleInputChange_errors (t : InputTarget) (s : State) :
  let s' := handleInputChange t s in
  (JS.truthy_opt (JS.get (errors s) (target_name t)) = true ->
   JS.get (errors s') (target_name t) = None)
  ∧ (∀ k : string, k ≠ target_name t -> errors s' !! k = errors s !! k)
  ∧ documentFrontFile s' = documentFrontFile s
  ∧ documentBackFile s' = documentBackFile s
  ∧ selfieFile s' = selfieFile s
  ∧ documentFrontPreview s' = documentFrontPreview s
  ∧ documentBackPreview s' = documentBackPreview s
  ∧ selfiePreview s' = selfiePreview s.
Proof.
  cbn zeta. unfold handleInputChange, updateErrors.
  destruct (JS.truthy_opt (JS.get (errors s) (target_name t))) eqn:Herr.
  - split; [intros _; cbn; apply get_insert_eq |].
    split; [intros k Hk; cbn; by rewrite lookup_insert_ne |].
    repeat split.
  - split; [discriminate |]. repeat split.
Qed.

Lemma handleInputChange_errors_witness :
  JS.get
    (errors (handleInputChange (InputCountry "France")
               after_failed_validation)) "country" = None.
Proof.
  destruct (handleInputChange_errors (InputCountry "France")
              after_failed_validation) as [Hclear _].
  apply Hclear. reflexivity.
Defined.

(** ** Camera acquisition *)

Lemma acquire_first_success (gum : GetUserMedia)
    (pre : list MediaStreamConstraints) (c : MediaStreamConstraints)
    (post : list MediaStreamConstraints) (m : MediaStream) :
  (∀ c', c' ∈ pre -> ∃ e, gum c' = inr e) ->
  gum c = inl m ->
  ∀ a : Attempts,
    mediaStream (acquire gum (pre ++ c :: post)%list a) = Some m
    ∧ calls (acquire gum (pre ++ c :: post)%list a) = (calls a ++ pre ++ [c])%list
    ∧ length (warnings (acquire gum (pre ++ c :: post)%list a))
      = (length (warnings a) + length pre)%nat.
Proof.
  intros Hpre Hc. induction pre as [|c0 pre IH]; intros a.
  - cbn. rewrite Hc. cbn. repeat split. lia.
  - destruct (Hpre c0) as [e He]; [left |].
    cbn [app acquire]. rewrite He.
    destruct (IH (fun c' Hin => Hpre c' (list_elem_of_further _ _ _ Hin))
                {| mediaStream := mediaStream a; lastError := Some e;
                   calls := calls a ++ [c0];
                   warnings := warnings a ++ [(c0, e)] |})
      as (Hm & Hcalls & Hw).
    split; [exact Hm |]. split.
    + rewrite Hcalls. cbn [calls]. by rewrite <- app_assoc.
    + rewrite Hw. cbn [warnings length]. rewrite length_app. cbn. lia.
Qed.

Lemma acquire_all_fail (gum : GetUserMedia)
    (options : list MediaStreamConstraints) :
  (∀ c, c ∈ options -> ∃ e, gum c = inr e) ->
  ∀ a : Attempts,
    mediaStream (acquire gum options a) = mediaStream a
    ∧ calls (acquire gum options a) = (calls a ++ options)%list
    ∧ lastError (acquire gum options a)
      = match last options with
        | Some c => match gum c with
                    | inr e => Some e
                    | inl _ => None
                    end
        | None => lastError a
        end.
Proof.
  induction options as [|c options IH]; intros Hall a.
  - cbn. by rewrite app_nil_r.
  - destruct (Hall c) as [e He]; [left |].
    cbn [acquire]. rewrite He.
    destruct (IH (fun c' Hin => Hall c' (list_elem_of_further _ _ _ Hin))
                {| mediaStream := mediaStream a; lastError := Some e;
                   calls := calls a ++ [c];
                   warnings := warnings a ++ [(c, e)] |})
      as (Hm & Hcalls & Hlast).
    split; [exact Hm |]. split.
    + rewrite Hcalls. cbn [calls]. by rewrite <- app_assoc.
    + rewrite Hlast. cbn [lastError].
      destruct options as [|c1 options]; [cbn; by rewrite He |].
      change (last (c :: c1 :: options)) with (last (c1 :: options)).
      destruct (last (c1 :: options)) eqn:Hl; [reflexivity |].
      apply last_None in Hl. discriminate Hl.
Qed.

(** The branches of the [catch] block of [startCamera], in the order in
    which they are tried. *)
Lemma camera_error_message_branches (err : JsError) :
  (err_name err ∈ ["NotAllowedError"; "PermissionDeniedError"] ->
   camera_error_message err
   = "Unable to access camera. Please allow camera permissions in your browser settings.")
  ∧ (err_name err ∈ ["NotFoundError"; "OverconstrainedError"] ->
     camera_error_message err
     = "Unable to access camera. No camera found on this device.")
  ∧ (err_name err ∈ ["NotReadableError"; "TrackStartError"] ->
     camera_error_message err
     = "Unable to access camera. Camera is already in use by another application.")
  ∧ (err_name err
       ∉ ["NotAllowedError"; "PermissionDeniedError"; "NotFoundError";
          "OverconstrainedError"; "NotReadableError"; "TrackStartError"] ->
     (JS.includes (err_message err) "secure context" = true ->
      camera_error_message err
      = "Unable to access camera. Camera access requires a secure context (HTTPS). Please ensure you are using HTTPS.")
     ∧ (JS.includes (err_message err) "secure context" = false ->
        JS.includes (err_message err) "supported in this browser" = true ->
        camera_error_message err
        = "Unable to access camera. " +:+ unsupported_message)
     ∧ (JS.includes (err_message err) "secure context" = false ->
        JS.includes (err_message err) "supported in this browser" = false ->
        JS.includes (err_message err) "HTTPS" = true ->
        camera_error_message err
        = "Unable to access camera. " +:+ android_https_message)
     ∧ (JS.includes (err_message err) "secure context" = false ->
        JS.includes (err_message err) "supported in this browser" = false ->
        JS.includes (err_message err) "HTTPS" = false ->
        camera_error_message err
        = "Unable to access camera. Please check your camera connection and try again. Error: "
          +:+ JS.or_else (err_message err) (err_name err))).
Proof.
  unfold camera_error_message.
  split; [| split; [| split]]; try (intros Hname;
    rewrite !elem_of_cons, elem_of_nil in Hname;
    destruct Hname as [-> | [-> | []]]; reflexivity).
  intros Hname. rewrite !not_elem_of_cons in Hname.
  destruct Hname as (H1 & H2 & H3 & H4 & H5 & H6 & _).
  apply String.eqb_neq in H1, H2, H3, H4, H5, H6.
  rewrite H1, H2, H3, H4, H5, H6. cbn [orb].
  assert (∀ needle, JS.includes (err_message err) needle = true ->
                    needle ≠ EmptyString ->
                    JS.truthy (err_message err) = true) as Htruthy.
  { intros needle Hin Hne. destruct (err_message err); [| reflexivity].
    destruct needle; [by destruct Hne | discriminate Hin]. }
  split; [| split; [| split]].
  - intros Hs. by rewrite Hs, (Htruthy _ Hs).
  - intros Hs Hb. by rewrite Hs, Hb, (Htruthy _ Hb), andb_false_r.
  - intros Hs Hb Hh. by rewrite Hs, Hb, Hh, (Htruthy _ Hh), !andb_false_r.
  - intros Hs Hb Hh. by rewrite Hs, Hb, Hh, !andb_false_r.
Qed.

(** C6.  The click on the start button runs [startCamera], which opens the
    panel and suspends on the first request; when the browser has answered,
    the rest of [startCamera] has asked for the device with the profiles of
    [constraintsOptions] in order, from the front camera at an ideal
    1280x720 to the bare [video: true].  The first profile that is granted
    gives the stream of the session and ends the loop: no later profile is
    asked.  When every profile is refused, the error of the last one, the
    bare profile, is the one thrown, and its message, chosen by the [catch]
    block, is written to [cameraError] and to the selfie error. *)
Theorem startCamera_acquisition (nav : Navigator) (gum : GetUserMedia)
    (s : State) :
  startCamera_checks nav = None ->
  enabled s ClickStartCamera = true ->
  (head constraintsOptions
   = Some {| video := VideoTrack "user"
                        (Some (mkRange None (Some 1280) None))
                        (Some (mkRange None (Some 720) None));
             audio := false |}
   ∧ last constraintsOptions
     = Some {| video := VideoFlag true; audio := false |})
  ∧ (∃ s1, step nav s ClickStartCamera = Some s1
           ∧ showCamera s1 = true
           ∧ cameraError s1 = None
           ∧ pending s1 = (pending s ++ [AcquireTask])%list)
  ∧ (∀ (s2 : State) (i : nat),
       pending s2 !! i = Some AcquireTask ->
       (∀ pre c post m,
          constraintsOptions = (pre ++ c :: post)%list ->
          (∀ c', c' ∈ pre -> ∃ e, gum c' = inr e) ->
          gum c = inl m ->
          mediaStream (acquire gum constraintsOptions no_attempts) = Some m
          ∧ calls (acquire gum constraintsOptions no_attempts)
            = (pre ++ [c])%list
          ∧ ∃ s', step nav s2 (Resume i (MediaResult gum)) = Some s'
                  ∧ stream s' = Some m
                  ∧ showCamera s' = showCamera s2
                  ∧ cameraError s' = cameraError s2
                  ∧ pending s' = delete i (pending s2))
       ∧ ((∀ c, c ∈ constraintsOptions -> ∃ e, gum c = inr e) ->
          ∃ e s',
            gum {| video := VideoFlag true; audio := false |} = inr e
            ∧ mediaStream (acquire gum constraintsOptions no_attempts)
              = None
            ∧ lastError (acquire gum constraintsOptions no_attempts)
              = Some e
            ∧ calls (acquire gum constraintsOptions no_attempts)
              = constraintsOptions
            ∧ step nav s2 (Resume i (MediaResult gum)) = Some s'
            ∧ showCamera s' = false
            ∧ stream s' = stream s2
            ∧ cameraError s' = Some (camera_error_message e)
            ∧ JS.get (errors s') "selfie" = Some (camera_error_message e)))
  ∧ (∀ e : JsError,
       (err_name e ∈ ["NotAllowedError"; "PermissionDeniedError"] ->
        camera_error_message e
        = "Unable to access camera. Please allow camera permissions in your browser settings.")
       ∧ (err_name e ∈ ["NotFoundError"; "OverconstrainedError"] ->
          camera_error_message e
          = "Unable to access camera. No camera found on this device.")
       ∧ (err_name e ∈ ["NotReadableError"; "TrackStartError"] ->
          camera_error_message e
          = "Unable to access camera. Camera is already in use by another application.")
       ∧ (err_name e
            ∉ ["NotAllowedError"; "PermissionDeniedError"; "NotFoundError";
               "OverconstrainedError"; "NotReadableError";
               "TrackStartError"] ->
          JS.includes (err_message e) "secure context" = false ->
          JS.includes (err_message e) "supported in this browser" = false ->
          JS.includes (err_message e) "HTTPS" = false ->
          camera_error_message e
          = "Unable to access camera. Please check your camera connection and try again. Error: "
            +:+ JS.or_else (err_message e) (err_name e))).
Proof.
  intros Hcheck Hen.
  split; [split; reflexivity |]. split; [| split].
  - eexists. split; [unfold step; by rewrite Hen |].
    cbn [handle]. unfold startCamera. rewrite Hcheck.
    rewrite commit_showCamera, commit_cameraError, commit_pending.
    repeat split.
  - intros s2 i Hi.
    set (s3 := set_pending (delete i (pending s2)) s2).
    assert (step nav s2 (Resume i (MediaResult gum))
            = Some (commit s2 (startCamera_resume gum s3))) as Hstep
        by (unfold step; cbn [enabled handle]; by rewrite Hi).
    split.
    + intros pre c post m Hsplit Hpre Hc.
      destruct (acquire_first_success gum pre c post m Hpre Hc no_attempts)
        as (Hm & Hcalls & _).
      rewrite <- Hsplit in Hm, Hcalls.
      split; [exact Hm |]. split; [exact Hcalls |].
      eexists. split; [exact Hstep |].
      rewrite commit_stream, commit_showCamera, commit_cameraError,
        commit_pending.
      unfold startCamera_resume. rewrite Hm. unfold bind_video.
      destruct (videoRef _) as [v|]; [destruct (srcObject v) |];
        repeat split.
    + intros Hall.
      destruct (acquire_all_fail gum constraintsOptions Hall no_attempts)
        as (Hm & Hcalls & Hlast).
      destruct (Hall {| video := VideoFlag true; audio := false |})
        as [e He].
      { unfold constraintsOptions. rewrite !elem_of_cons. auto. }
      change (last constraintsOptions)
        with (Some {| video := VideoFlag true; audio := false |}) in Hlast.
      cbv beta iota in Hlast. rewrite He in Hlast.
      assert (startCamera_resume gum s3 = startCamera_catch e s3) as Hres
          by (unfold startCamera_resume; by rewrite Hm, Hlast).
      exists e, (commit s2 (startCamera_resume gum s3)).
      split; [exact He |]. split; [exact Hm |]. split; [exact Hlast |].
      split; [exact Hcalls |]. split; [exact Hstep |].
      rewrite commit_showCamera, commit_stream, commit_cameraError,
        commit_errors, Hres.
      unfold startCamera_catch. simpl_state. rewrite get_insert_eq.
      repeat split.
  - intros e.
    destruct (camera_error_message_branches e)
      as (Hperm & Hfound & Hbusy & Hother).
    split; [exact Hperm |]. split; [exact Hfound |]. split; [exact Hbusy |].
    intros Hname. by destruct (Hother Hname) as (_ & _ & _ & Hrest).
Qed.

Lemma startCamera_acquisition_witness :
  (∃ s1, step desktop camera_cancelled ClickStartCamera = Some s1
         ∧ pending s1 = [AcquireTask]
         ∧ ∃ s2, step desktop s1 (Resume 0 (MediaResult plain_camera))
                 = Some s2
                 ∧ stream s2 = Some 7%nat
                 ∧ calls (acquire plain_camera constraintsOptions
                            no_attempts) = constraintsOptions)
  ∧ (∃ s1 s2, step desktop camera_cancelled ClickStartCamera = Some s1
              ∧ step desktop s1 (Resume 0 (MediaResult refusing_browser))
                = Some s2
              ∧ showCamera s2 = false
              ∧ cameraError s2
                = Some "Unable to access camera. Please allow camera permissions in your browser settings.").
Proof.
  destruct (startCamera_acquisition desktop plain_camera camera_cancelled)
    as (_ & (s1 & Hstart & _ & _ & Hpending) & Hresume & _);
    [reflexivity | reflexivity |].
  destruct (startCamera_acquisition desktop refusing_browser
              camera_cancelled)
    as (_ & (s1' & Hstart' & _ & _ & Hpending') & Hresume' & Hmsg);
    [reflexivity | reflexivity |].
  split.
  - exists s1. split; [exact Hstart |]. split; [exact Hpending |].
    destruct (Hresume s1 0%nat) as [Hfirst _]; [by rewrite Hpending |].
    destruct (Hfirst (take 3 constraintsOptions) bare_video [] 7%nat)
      as (_ & Hcalls & s2 & Hstep & Hstream & _).
    + reflexivity.
    + intros c' Hin. exists overconstrained.
      cbn in Hin. rewrite !elem_of_cons, elem_of_nil in Hin.
      destruct Hin as [-> | [-> | [-> | []]]]; reflexivity.
    + reflexivity.
    + exists s2. repeat split; assumption.
  - exists s1'.
    destruct (Hresume' s1' 0%nat) as [_ Hnone]; [by rewrite Hpending' |].
    destruct Hnone
      as (e & s2 & He & _ & _ & _ & Hstep & Hshow & _ & Herr & _).
    + intros c Hin. unfold constraintsOptions in Hin.
      rewrite !elem_of_cons, elem_of_nil in Hin.
      destruct Hin as [-> | [-> | [-> | [-> | []]]]]; eexists; reflexivity.
    + exists s2. split; [exact Hstart' |]. split; [exact Hstep |].
      split; [exact Hshow |].
      rewrite Herr. cbn in He. injection He as <-.
      destruct (Hmsg not_allowed) as [Hperm _]. rewrite Hperm; [reflexivity |].
      unfold not_allowed. cbn [err_name]. rewrite !elem_of_cons. auto.
Defined.

(** ** Rendering, streams and element references *)

Lemma elem_of_commit_live (m : MediaStream) (b a : State) :
  m ∈ liveTracks (commit b a) ↔
  m ∈ liveTracks a ∧ (stream b = Some m -> stream a = Some m).
Proof.
  unfold commit, update_refs, effect_cleanup, stop_tracks.
  destruct (stream b) as [m0|]; try case_bool_decide;
    repeat (destruct (camera_rendered _));
    cbn [liveTracks set_liveTracks set_canvasRef set_videoRef];
    set_solver.
Qed.

Lemma cleanup_showCamera (b a : State) :
  showCamera (effect_cleanup b a) = showCamera a.
Proof.
  unfold effect_cleanup, stop_tracks.
  destruct (stream b); try case_bool_decide; reflexivity.
Qed.

Lemma cleanup_videoRef (b a : State) :
  videoRef (effect_cleanup b a) = videoRef a.
Proof.
  unfold effect_cleanup, stop_tracks.
  destruct (stream b); try case_bool_decide; reflexivity.
Qed.

Lemma commit_refs_hidden (b a : State) :
  showCamera a = false ->
  videoRef (commit b a) = None ∧ canvasRef (commit b a) = None.
Proof.
  intros Hhide.
  assert (camera_rendered (effect_cleanup b a) = false) as Hr.
  { unfold camera_rendered. rewrite cleanup_showCamera, Hhide.
    apply andb_false_r. }
  unfold commit, update_refs. rewrite Hr. split; reflexivity.
Qed.

Lemma commit_videoRef_cases (b a : State) :
  videoRef (commit b a) = None
  ∨ videoRef (commit b a) = Some fresh_video
  ∨ (videoRef (commit b a) = videoRef a ∧ showCamera a = true).
Proof.
  unfold commit, update_refs.
  destruct (camera_rendered (effect_cleanup b a)) eqn:Hr; [| by left].
  destruct (camera_rendered b); [| right; by left].
  right; right. split; [apply cleanup_videoRef |].
  unfold camera_rendered in Hr. apply andb_true_iff in Hr as [_ Hr].
  by rewrite cleanup_showCamera in Hr.
Qed.

(** ** Stopping the camera *)

Lemma stopCamera_twice (c : option MediaStream) (s : State) :
  stopCamera c (stopCamera c s) = stopCamera c s.
Proof.
  unfold stopCamera. destruct c as [m|]; [| reflexivity].
  apply State_eq; simpl_state; try reflexivity. set_solver.
Qed.

Lemma stop_when_idle (s : State) :
  stream s = None -> showCamera s = false -> cameraError s = None ->
  videoRef s = None -> canvasRef s = None ->
  commit s (stopCamera (stream s) s) = s.
Proof.
  intros Hs Hshow Herr Hv Hc.
  assert (stopCamera (stream s) s = s) as ->.
  { rewrite Hs. unfold stopCamera. apply State_eq; simpl_state; congruence. }
  unfold commit, update_refs, effect_cleanup, camera_rendered.
  rewrite Hs, Hshow, andb_false_r.
  apply State_eq; simpl_state; congruence.
Qed.

(** C8.  [stopCamera] is idempotent.  After one call and the render that
    follows, the stream is null and its tracks are stopped, the camera
    panel is closed and the session error is cleared; a second call, alone
    or in the same handler, changes nothing. *)
Theorem stopCamera_idempotent (s : State) :
  let s1 := commit s (stopCamera (stream s) s) in
  commit s1 (stopCamera (stream s1) s1) = s1
  ∧ (∀ c, stopCamera c (stopCamera c s) = stopCamera c s)
  ∧ stream s1 = None
  ∧ showCamera s1 = false
  ∧ cameraError s1 = None
  ∧ (∀ m, stream s = Some m -> m ∉ liveTracks s1).
Proof.
  cbn zeta.
  assert (stream (stopCamera (stream s) s) = None) as Hstream.
  { unfold stopCamera. destruct (stream s) eqn:Hs; cbn; [reflexivity | exact Hs]. }
  assert (showCamera (stopCamera (stream s) s) = false) as Hshow
      by (unfold stopCamera; destruct (stream s); reflexivity).
  assert (cameraError (stopCamera (stream s) s) = None) as Herr
      by (unfold stopCamera; destruct (stream s); reflexivity).
  destruct (commit_refs_hidden s _ Hshow) as [Hv Hc].
  split; [| split; [intros c; apply stopCamera_twice |]].
  - apply stop_when_idle; [by rewrite commit_stream | by rewrite commit_showCamera
      | by rewrite commit_cameraError | exact Hv | exact Hc].
  - rewrite commit_stream, commit_showCamera, commit_cameraError.
    repeat split; try assumption.
    intros m Hm. rewrite elem_of_commit_live. intros [Hin _].
    revert Hin. rewrite Hm. unfold stopCamera. simpl_state. set_solver.
Qed.
(** ** Handlers that leave the camera session alone *)

Lemma handleInputChange_camera (t : InputTarget) (s : State) :
  camera_unchanged (handleInputChange t s) s.
Proof.
  unfold handleInputChange. destruct (JS.truthy_opt _); repeat split.
Qed.

Lemma handleFileUpload_camera (file : option File) (type : Slot)
    (s : State) :
  camera_unchanged (handleFileUpload file type s) s.
Proof.
  unfold handleFileUpload. destruct file as [f|]; [| repeat split].
  destruct (max_file_size <? file_size f)%N; repeat split.
Qed.

Lemma reader_onloadend_camera (f : File) (type : Slot) (r : option string)
    (s : State) :
  camera_unchanged (reader_onloadend f type r s) s.
Proof. destruct type; repeat split. Qed.

Lemma handleNext_camera (s : State) : camera_unchanged (handleNext s) s.
Proof.
  unfold handleNext.
  destruct (currentStep s =? 1).
  - destruct (validateStep1 s) as [s1 ok] eqn:Hv.
    assert (s1 = setErrors (errors s1) s) as ->
        by (unfold validateStep1 in Hv; by injection Hv as <- _).
    destruct ok; [| repeat split].
    destruct (negb (showCamera s) && _); repeat split.
  - destruct (currentStep s =? 2); [| repeat split].
    destruct (validateStep2 s) as [s1 ok] eqn:Hv.
    assert (s1 = setErrors (errors s1) s) as ->
        by (unfold validateStep2 in Hv; by injection Hv as <- _).
    destruct ok; repeat split.
Qed.

Lemma capturePhoto_camera (env : CaptureEnv) (s : State) :
  camera_unchanged (capturePhoto env s) s.
Proof.
  unfold capturePhoto.
  destruct (videoRef s) as [v|]; [| repeat split].
  destruct (canvasRef s); [| repeat split].
  destruct (_ || _); [repeat split |].
  destruct (negb _); [repeat split |].
  destruct (drawImage_throws env); repeat split.
Qed.

Lemma quiet_event_camera (nav : Navigator) (e : Event) (s : State) :
  quiet_event s e = true ->
  camera_unchanged (handle nav e s) s.
Proof.
  destruct e; cbn [quiet_event handle]; try discriminate; intros Hform.
  - apply handleInputChange_camera.
  - apply handleFileUpload_camera.
  - repeat split.
  - repeat split.
  - apply handleNext_camera.
  - repeat split.
  - apply capturePhoto_camera.
  - repeat split.
  - destruct (pending s !! i) as [[f t| | | |]|]; try discriminate;
      destruct o;
      first [ apply (reader_onloadend_camera f t _
                       (set_pending (delete i (pending s)) s))
            | repeat split ].
Qed.

(** ** Handlers of the camera *)

Lemma startCamera_frame (nav : Navigator) (s : State) :
  stream (startCamera nav s) = stream s
  ∧ liveTracks (startCamera nav s) = liveTracks s
  ∧ videoRef (startCamera nav s) = videoRef s
  ∧ selfiePreview (startCamera nav s) = selfiePreview s.
Proof.
  unfold startCamera. destruct (startCamera_checks nav); repeat split.
Qed.

Lemma stopCamera_frame (c : option MediaStream) (s : State) :
  showCamera (stopCamera c s) = false
  ∧ liveTracks (stopCamera c s) ⊆ liveTracks s
  ∧ selfiePreview (stopCamera c s) = selfiePreview s
  ∧ (stream (stopCamera c s) = None ∨ stream (stopCamera c s) = stream s).
Proof.
  unfold stopCamera. destruct c as [m|]; simpl_state;
    (split; [reflexivity |]); (split; [set_solver |]); auto.
Qed.

Lemma resetForm_frame (c : option MediaStream) (s : State) :
  showCamera (resetForm c s) = false
  ∧ liveTracks (resetForm c s) ⊆ liveTracks s
  ∧ selfiePreview (resetForm c s) = None
  ∧ (stream (resetForm c s) = None ∨ stream (resetForm c s) = stream s).
Proof.
  unfold resetForm. destruct c as [m|]; simpl_state;
    (split; [reflexivity |]); (split; [set_solver |]); auto.
Qed.

Lemma startCamera_resume_cases (gum : GetUserMedia) (s : State) :
  (∃ m, startCamera_resume gum s
        = bind_video m
            (setStream (Some m) (set_liveTracks ({[m]} ∪ liveTracks s) s)))
  ∨ (∃ err, startCamera_resume gum s = startCamera_catch err s)
  ∨ startCamera_resume gum s = s.
Proof.
  unfold startCamera_resume.
  destruct (mediaStream _) as [m|]; [left; eauto |].
  destruct (lastError _) as [err|]; [right; left; eauto | by right; right].
Qed.

Lemma bind_video_frame (m : MediaStream) (s : State) :
  showCamera (bind_video m s) = showCamera s
  ∧ stream (bind_video m s) = stream s
  ∧ liveTracks (bind_video m s) ⊆ liveTracks s
  ∧ selfiePreview (bind_video m s) = selfiePreview s
  ∧ (videoRef (bind_video m s) = None
     ∨ videoRef (bind_video m s)
       = Some {| srcObject := Some m; videoWidth := 0; videoHeight := 0 |}).
Proof.
  unfold bind_video. destruct (videoRef s) as [v|] eqn:Hv.
  - destruct (srcObject v); simpl_state; repeat split; auto; set_solver.
  - rewrite Hv. repeat split; auto.
Qed.

Lemma toBlob_callback_cases (canvas : Canvas) (type : string)
    (quality : QArith_base.Q) (c : option MediaStream) (encoded : option N)
    (payload : string) (s : State) :
  (showCamera (toBlob_callback canvas type quality c encoded payload s)
   = false
   ∧ liveTracks (toBlob_callback canvas type quality c encoded payload s)
     ⊆ liveTracks s
   ∧ (stream (toBlob_callback canvas type quality c encoded payload s) = None
      ∨ stream (toBlob_callback canvas type quality c encoded payload s)
        = stream s))
  ∨ camera_unchanged
      (toBlob_callback canvas type quality c encoded payload s) s.
Proof.
  unfold toBlob_callback. destruct encoded as [n|]; [left | right; repeat split].
  destruct c as [m|]; unfold stopCamera; simpl_state;
    (split; [reflexivity |]); (split; [set_solver |]); auto.
Qed.

Lemma video_onloadeddata_frame (w h : N) (ok : bool) (s : State) :
  showCamera (video_onloadeddata w h ok s) = showCamera s
  ∧ stream (video_onloadeddata w h ok s) = stream s
  ∧ liveTracks (video_onloadeddata w h ok s) = liveTracks s
  ∧ selfiePreview (video_onloadeddata w h ok s) = selfiePreview s.
Proof.
  unfold video_onloadeddata. destruct (videoRef s); [| repeat split].
  destruct ok; repeat split.
Qed.

(** ** Streams with live tracks *)

Lemma handle_live (nav : Navigator) (e : Event) (s : State)
    (m : MediaStream) :
  m ∈ liveTracks (handle nav e s) ->
  stream (handle nav e s) = Some m ∨ m ∈ liveTracks s.
Proof.
  destruct (quiet_event s e) eqn:Hform.
  { destruct (quiet_event_camera nav e s Hform) as (_ & _ & -> & _). auto. }
  destruct e; cbn [quiet_event] in Hform; try discriminate Hform;
    clear Hform; cbn [handle].
  - destruct (startCamera_frame nav s) as (_ & -> & _). auto.
  - destruct (stopCamera_frame (stream s) s) as (_ & Hsub & _). set_solver.
  - unfold removeSelfie.
    destruct (startCamera_frame nav
                (setSelfiePreview None (setSelfieFile None s)))
      as (_ & -> & _). auto.
  - destruct (resetForm_frame (stream s) s) as (_ & Hsub & _). set_solver.
  - destruct (video_onloadeddata_frame w h play_ok s) as (_ & _ & -> & _).
    auto.
  - set (s1 := set_pending (delete i (pending s)) s).
    change (liveTracks s) with (liveTracks s1).
    destruct (pending s !! i) as [[f t| |cv ty q c| |]|]; destruct o;
      try (by right).
    + destruct (reader_onloadend_camera f t result s1) as (_ & _ & -> & _).
      auto.
    + destruct (startCamera_resume_cases gum s1)
        as [[m0 ->] | [[err ->] | ->]]; try (by right).
      destruct (bind_video_frame m0
                  (setStream (Some m0)
                     (set_liveTracks ({[m0]} ∪ liveTracks s1) s1)))
        as (_ & -> & Hsub & _).
      simpl_state. intros Hin. apply Hsub in Hin. simpl_state.
      clearbody s1. set_solver.
    + destruct (toBlob_callback_cases cv ty q c encoded payload s1)
        as [(_ & Hsub & _) | (_ & _ & -> & _)]; [| auto].
      clearbody s1. set_solver.
    + destruct (startCamera_frame nav s1) as (_ & -> & _). auto.
Qed.

Lemma live_owned_step (nav : Navigator) (s s' : State) (e : Event) :
  live_owned s -> step nav s e = Some s' -> live_owned s'.
Proof.
  unfold step. intros Hinv Hstep.
  destruct (enabled s e); [| discriminate]. injection Hstep as <-.
  intros m. rewrite elem_of_commit_live, commit_stream. intros [Hin Hkeep].
  destruct (handle_live nav e s m Hin) as [Hnew | Hold]; [exact Hnew |].
  apply Hkeep, Hinv, Hold.
Qed.

(** ** The video element and the stream *)

Lemma video_bound_frame (a b : State) :
  videoRef a = videoRef b -> stream a = stream b ->
  video_bound b -> video_bound a.
Proof. unfold video_bound. intros -> ->. auto. Qed.

Lemma handle_video (nav : Navigator) (e : Event) (s : State) :
  enabled s e = true -> video_bound s ->
  showCamera (handle nav e s) = true -> video_bound (handle nav e s).
Proof.
  intros Hen Hinv.
  destruct (quiet_event s e) eqn:Hform.
  { destruct (quiet_event_camera nav e s Hform) as (_ & Hs & _ & Hv & _).
    intros _. by apply (video_bound_frame _ s). }
  destruct e; cbn [quiet_event] in Hform; try discriminate Hform;
    clear Hform; cbn [handle].
  - destruct (startCamera_frame nav s) as (Hs & _ & Hv & _).
    intros _. by apply (video_bound_frame _ s).
  - destruct (stopCamera_frame (stream s) s) as (-> & _). discriminate.
  - unfold removeSelfie.
    destruct (startCamera_frame nav
                (setSelfiePreview None (setSelfieFile None s)))
      as (Hs & _ & Hv & _).
    intros _. by apply (video_bound_frame _ s).
  - destruct (resetForm_frame (stream s) s) as (-> & _). discriminate.
  - intros _. cbn [enabled] in Hen. unfold video_onloadeddata.
    destruct (videoRef s) as [v|] eqn:Hv; [| discriminate].
    apply bool_decide_eq_true in Hen.
    destruct (Hinv v Hv) as [_ Hbound].
    assert (video_bound
              (set_videoRef
                 (Some {| srcObject := srcObject v;
                          videoWidth := w; videoHeight := h |}) s)) as Hb.
    { intros v' [= <-]. split; [| exact Hbound].
      cbn. intros Hnone. rewrite Hnone in Hen. by destruct Hen. }
    destruct play_ok; [exact Hb |].
    by apply (video_bound_frame _ (set_videoRef
                 (Some {| srcObject := srcObject v;
                          videoWidth := w; videoHeight := h |}) s)).
  - set (s1 := set_pending (delete i (pending s)) s).
    assert (video_bound s1) as Hinv1 by exact Hinv.
    destruct (pending s !! i) as [[f t| |cv ty q c| |]|]; destruct o;
      try (intros _; exact Hinv).
    + destruct (reader_onloadend_camera f t result s1)
        as (_ & Hs & _ & Hv & _).
      intros _. by apply (video_bound_frame _ s1).
    + destruct (startCamera_resume_cases gum s1)
        as [[m0 ->] | [[err ->] | ->]];
        [| discriminate | intros _; exact Hinv1].
      intros _.
      destruct (bind_video_frame m0
                  (setStream (Some m0)
                     (set_liveTracks ({[m0]} ∪ liveTracks s1) s1)))
        as (_ & Hs & _ & _ & Hv).
      intros v. rewrite Hs. simpl_state.
      destruct Hv as [-> | ->]; [discriminate |].
      intros [= <-]. cbn. split; [discriminate | eauto].
    + destruct (toBlob_callback_cases cv ty q c encoded payload s1)
        as [(-> & _) | (_ & Hs & _ & Hv & _)]; [discriminate |].
      intros _. by apply (video_bound_frame _ s1).
    + destruct (startCamera_frame nav s1) as (Hs & _ & Hv & _).
      intros _. by apply (video_bound_frame _ s1).
Qed.

Lemma video_bound_step (nav : Navigator) (s s' : State) (e : Event) :
  video_bound s -> step nav s e = Some s' -> video_bound s'.
Proof.
  unfold step. intros Hinv Hstep.
  destruct (enabled s e) eqn:Hen; [| discriminate]. injection Hstep as <-.
  intros v Hv. rewrite commit_stream.
  destruct (commit_videoRef_cases s (handle nav e s))
    as [Hnone | [Hfresh | [Hkept Hshow]]].
  - rewrite Hnone in Hv. discriminate.
  - rewrite Hfresh in Hv. injection Hv as <-. split; [done |].
    intros [? [=]].
  - rewrite Hkept in Hv.
    exact (handle_video nav e s Hen Hinv Hshow v Hv).
Qed.

(** ** Reachable states *)

Lemma run_reachable (nav : Navigator) (es : list Event) :
  ∀ s s', reachable nav s -> run nav s es = Some s' -> reachable nav s'.
Proof.
  induction es as [|e es IH]; intros s s' Hs Hrun; cbn in Hrun.
  - by injection Hrun as <-.
  - destruct (step nav s e) as [s1|] eqn:Hstep; [| discriminate].
    eapply IH; [| exact Hrun]. eapply reachable_step; eauto.
Qed.

Lemma reachable_invariants (nav : Navigator) (s : State) :
  reachable nav s -> live_owned s ∧ video_bound s.
Proof.
  induction 1 as [|s e s' _ [IHl IHv] Hstep].
  - split; [intros m Hm; cbn in Hm; set_solver | intros v [=]].
  - split; [eapply live_owned_step | eapply video_bound_step]; eauto.
Qed.

(** ** Capture refused *)

(** C5.  In a reachable state, when [stream] holds no stream or the video
    element reports a frame without width or height, [capturePhoto] only
    records one of its two not-ready messages as the camera error: no
    selfie file or preview is made, no encoding is started, and [stream]
    and [showCamera] stay as they are. *)
Theorem capturePhoto_not_ready (nav : Navigator) (env : CaptureEnv)
    (s : State) :
  reachable nav s ->
  stream s = None ∨ frame_size_zero s ->
  ∃ msg, msg ∈ not_ready_messages
         ∧ capturePhoto env s = setCameraError (Some msg) s
         ∧ selfieFile (capturePhoto env s) = selfieFile s
         ∧ selfiePreview (capturePhoto env s) = selfiePreview s
         ∧ pending (capturePhoto env s) = pending s
         ∧ stream (capturePhoto env s) = stream s
         ∧ showCamera (capturePhoto env s) = showCamera s.
Proof.
  intros Hreach Hnot.
  destruct (reachable_invariants nav s Hreach) as [_ Hvideo].
  assert (∃ msg, msg ∈ not_ready_messages
                 ∧ capturePhoto env s = setCameraError (Some msg) s)
    as (msg & Hmsg & Heq).
  { unfold capturePhoto, not_ready_messages.
    destruct (videoRef s) as [v|] eqn:Hv;
      [| eexists; split; [| reflexivity]; set_solver].
    destruct (canvasRef s) as [c|];
      [| eexists; split; [| reflexivity]; set_solver].
    assert (videoWidth v = 0%N ∨ videoHeight v = 0%N) as Hzero.
    { destruct Hnot as [Hnone | (v' & Hv' & Hz)]; [| congruence].
      destruct (Hvideo v Hv) as [Hunbound Hbound].
      destruct (srcObject v) as [m0|] eqn:Hsrc.
      - destruct Hbound as [m1 Hm]; [eauto | congruence].
      - left. by apply Hunbound. }
    assert (((videoWidth v =? 0)%N || (videoHeight v =? 0)%N) = true) as ->.
    { apply orb_true_iff. rewrite !N.eqb_eq. exact Hzero. }
    eexists; split; [| reflexivity]. set_solver. }
  exists msg. rewrite Heq. repeat split; assumption.
Qed.

(** Between the answer of the camera and the first frame, the video is
    bound but reports no frame size: the capture is refused. *)
Example capturePhoto_before_first_frame :
  ∃ s, run desktop initial (take 6 to_streaming) = Some s
       ∧ stream s = Some 7%nat
       ∧ videoRef s
         = Some {| srcObject := Some 7%nat; videoWidth := 0;
                   videoHeight := 0 |}
       ∧ capturePhoto (mkCaptureEnv true None) s
         = setCameraError
             (Some "Camera stream not ready. Please wait a moment and try again.")
             s.
Proof. eexists. split; [vm_compute; reflexivity |]. repeat split. Qed.

Lemma capturePhoto_not_ready_witness :
  ∃ msg, msg ∈ not_ready_messages
         ∧ capturePhoto (mkCaptureEnv true None) initial
           = setCameraError (Some msg) initial.
Proof.
  destruct (capturePhoto_not_ready desktop (mkCaptureEnv true None) initial)
    as (msg & Hmsg & Heq & _).
  - apply reachable_initial.
  - left. reflexivity.
  - exists msg. split; [exact Hmsg | exact Heq].
Defined.

Example streaming_run : run desktop initial to_streaming = Some streaming.
Proof. vm_compute. reflexivity. Qed.

Example streaming_state :
  currentStep streaming = 2 ∧ showCamera streaming = true
  ∧ stream streaming = Some 7%nat ∧ liveTracks streaming = {[7%nat]}
  ∧ videoRef streaming
    = Some {| srcObject := Some 7%nat; videoWidth := 640;
              videoHeight := 480 |}
  ∧ pending streaming = [].
Proof. vm_compute. repeat split. Qed.

Lemma streaming_reachable : reachable desktop streaming.
Proof.
  apply (run_reachable desktop to_streaming initial);
    [apply reachable_initial | exact streaming_run].
Qed.

(** ** Reset *)

(** C9.  After [resetForm] and the render that follows, the form data are
    a passport with an empty country, the three files and their previews
    are gone, the error map is empty, and the stream held in [stream] is
    stopped and dropped; in a reachable state no stream has a live track
    left. *)
Theorem resetForm_restores (nav : Navigator) (s : State) :
  let s' := commit s (resetForm (stream s) s) in
  formData s' = {| documentType := passport; country := EmptyString |}
  ∧ (documentFrontFile s' = None ∧ documentBackFile s' = None
     ∧ selfieFile s' = None)
  ∧ (documentFrontPreview s' = None ∧ documentBackPreview s' = None
     ∧ selfiePreview s' = None)
  ∧ errors s' = ∅
  ∧ currentStep s' = 1
  ∧ (stream s' = None ∧ showCamera s' = false ∧ cameraError s' = None)
  ∧ (∀ m, stream s = Some m -> m ∉ liveTracks s')
  ∧ (reachable nav s -> liveTracks s' = ∅).
Proof.
  cbn zeta.
  rewrite commit_formData, commit_documentFrontFile, commit_documentBackFile,
    commit_selfieFile, commit_documentFrontPreview,
    commit_documentBackPreview, commit_selfiePreview, commit_errors,
    commit_currentStep, commit_stream, commit_showCamera,
    commit_cameraError.
  assert (stream (resetForm (stream s) s) = None) as Hstream.
  { unfold resetForm. destruct (stream s) eqn:Hs; simpl_state; congruence. }
  assert (∀ m, m ∈ liveTracks (resetForm (stream s) s) ->
               m ∈ liveTracks s ∧ stream s ≠ Some m) as Hlive.
  { intros m. unfold resetForm. destruct (stream s) as [m0|]; simpl_state.
    - rewrite elem_of_difference, elem_of_singleton. intros [? ?].
      split; congruence.
    - intros Hin. split; [exact Hin | discriminate]. }
  split; [by unfold resetForm; destruct (stream s) |].
  split; [by unfold resetForm; destruct (stream s) |].
  split; [by unfold resetForm; destruct (stream s) |].
  split; [by unfold resetForm; destruct (stream s) |].
  split; [by unfold resetForm; destruct (stream s) |].
  split; [split; [exact Hstream | by unfold resetForm; destruct (stream s)] |].
  split.
  - intros m Hm. rewrite elem_of_commit_live. intros [Hin _].
    by destruct (Hlive m Hin).
  - intros Hreach. destruct (reachable_invariants nav s Hreach) as [Hown _].
    apply set_eq. intros m. rewrite elem_of_commit_live. split.
    + intros [Hin _]. destruct (Hlive m Hin) as [Hin' Hne].
      destruct Hne. by apply Hown.
    + intros Hin. by apply not_elem_of_empty in Hin.
Qed.

Lemma resetForm_restores_witness :
  liveTracks (commit streaming (resetForm (stream streaming) streaming)) = ∅
  ∧ 7%nat ∉ liveTracks
              (commit streaming (resetForm (stream streaming) streaming)).
Proof.
  destruct (resetForm_restores desktop streaming)
    as (_ & _ & _ & _ & _ & _ & Hstopped & Hnone).
  split.
  - apply Hnone.
    apply (run_reachable desktop to_streaming initial);
      [apply reachable_initial | vm_compute; reflexivity].
  - apply Hstopped. vm_compute. reflexivity.
Defined.

(** ** Capture *)

Lemma toDataURL_not_empty (canvas : Canvas) (type payload : string) :
  toDataURL canvas type payload ≠ EmptyString.
Proof. unfold toDataURL. by destruct (_ || _). Qed.

(** C4.  When [capturePhoto] passes its checks it asks the canvas for a
    JPEG at quality 0.9, and when the encoder delivers the blob the callback
    stores it as the file [selfie.jpg], stores a preview that is not empty,
    closes the camera panel and drops the stream, whose tracks are
    stopped. *)
Theorem capturePhoto_success (nav : Navigator) (env : CaptureEnv)
    (s : State) :
  enabled s (ClickCapture env) = true ->
  capture_ready env s = true ->
  ∃ canvas m,
    stream s = Some m
    ∧ capturePhoto env s
      = add_task (BlobTask canvas "image/jpeg" jpeg_quality (Some m))
          (set_canvasRef (Some canvas) s)
    ∧ ∀ (s2 : State) (i : nat) (n : N) (payload : string),
        pending s2 !! i
        = Some (BlobTask canvas "image/jpeg" jpeg_quality (Some m)) ->
        ∃ s' blob preview,
          step nav s2 (Resume i (BlobResult (Some n) payload)) = Some s'
          ∧ selfieFile s'
            = Some {| file_name := "selfie.jpg"; file_type := "image/jpeg";
                      file_size := n; file_body := Parts [blob] |}
          ∧ blob_type blob = "image/jpeg"
          ∧ blob_quality blob = QArith_base.Qmake 9 10
          ∧ selfiePreview s' = Some preview
          ∧ preview ≠ EmptyString
          ∧ (stream s' = None ∧ showCamera s' = false
             ∧ cameraError s' = None ∧ videoRef s' = None)
          ∧ (m ∉ liveTracks s')
          ∧ (∀ m2, stream s2 = Some m2 -> m2 ∉ liveTracks s')
          ∧ (live_owned s2 -> liveTracks s' = ∅).
Proof.
  intros Hen Hready. cbn [enabled] in Hen.
  apply andb_true_iff in Hen as [_ Hstream].
  apply bool_decide_eq_true in Hstream as [m Hm].
  unfold capture_ready in Hready. unfold capturePhoto.
  destruct (videoRef s) as [v|]; [| discriminate].
  destruct (canvasRef s) as [c0|]; [| discriminate].
  apply andb_true_iff in Hready as [Hready Hdraw].
  apply andb_true_iff in Hready as [Hsize Hctx].
  apply negb_true_iff in Hsize. rewrite Hsize, Hctx. cbn [negb].
  rewrite is_Some_bool in Hdraw.
  destruct (drawImage_throws env); [discriminate |].
  eexists _, m. split; [exact Hm |]. split; [by rewrite Hm |].
  intros s2 i n payload Hi.
  set (s3 := set_pending (delete i (pending s2)) s2).
  set (canvas := {| canvas_width := videoWidth v;
                    canvas_height := videoHeight v |}) in *.
  set (s4 := toBlob_callback canvas "image/jpeg" jpeg_quality (Some m)
               (Some n) payload s3).
  assert (stream s4 = None) as Hs4 by reflexivity.
  assert (showCamera s4 = false) as Hshow4 by reflexivity.
  assert (liveTracks s4 = liveTracks s2 ∖ {[m]}) as Hlive4 by reflexivity.
  exists (commit s2 s4). eexists _, _.
  split; [unfold step; cbn [enabled handle]; by rewrite Hi |].
  rewrite commit_selfieFile, commit_selfiePreview, commit_stream,
    commit_showCamera, commit_cameraError.
  split; [reflexivity |]. split; [reflexivity |]. split; [reflexivity |].
  split; [reflexivity |]. split; [apply toDataURL_not_empty |].
  split.
  { repeat split. by destruct (commit_refs_hidden s2 s4 Hshow4). }
  split.
  { rewrite elem_of_commit_live, Hlive4. set_solver. }
  split.
  { intros m2 Hm2. rewrite elem_of_commit_live, Hs4. intros [_ Hkeep].
    by specialize (Hkeep Hm2). }
  intros Hown. apply set_eq. intros m'. rewrite elem_of_commit_live, Hs4, Hlive4.
  split; [| intros Hin; by apply not_elem_of_empty in Hin].
  intros [Hin Hkeep]. apply elem_of_difference in Hin as [Hin _].
  by specialize (Hkeep (Hown m' Hin)).
Qed.

Lemma capturePhoto_success_witness :
  ∃ s' blob preview,
    run desktop streaming
      [ClickCapture (mkCaptureEnv true None);
       Resume 0 (BlobResult (Some 48213%N) "/9j/4AAQSkZJRgABAQ==")]
    = Some s'
    ∧ selfieFile s'
      = Some {| file_name := "selfie.jpg"; file_type := "image/jpeg";
                file_size := 48213; file_body := Parts [blob] |}
    ∧ blob_quality blob = QArith_base.Qmake 9 10
    ∧ selfiePreview s' = Some preview
    ∧ preview ≠ EmptyString
    ∧ showCamera s' = false
    ∧ liveTracks s' = ∅.
Proof.
  destruct (capturePhoto_success desktop (mkCaptureEnv true None) streaming)
    as (canvas & m & Hm & Hcap & Hcb).
  - vm_compute. reflexivity.
  - vm_compute. reflexivity.
  - set (s1 := commit streaming
                 (capturePhoto (mkCaptureEnv true None) streaming)).
    destruct (Hcb s1 0%nat 48213%N "/9j/4AAQSkZJRgABAQ==")
      as (s' & blob & preview & Hstep & Hfile & _ & Hq & Hprev & Hne
          & (_ & Hshow & _) & _ & _ & Hlive).
    + unfold s1. rewrite commit_pending, Hcap. reflexivity.
    + exists s', blob, preview.
      split; [| repeat split; try assumption].
      * cbn [run]. change (step desktop streaming
                             (ClickCapture (mkCaptureEnv true None)))
          with (Some s1). cbn iota. by rewrite Hstep.
      * apply Hlive.
        apply (reachable_invariants desktop s1).
        apply (reachable_step desktop streaming
                 (ClickCapture (mkCaptureEnv true None)));
          [exact streaming_reachable | vm_compute; reflexivity].
Defined.

(** ** Camera panel and selfie preview *)

Lemma panel_xor_preview_frame (a b : State) :
  showCamera a = showCamera b -> selfiePreview a = selfiePreview b ->
  panel_xor_preview b -> panel_xor_preview a.
Proof. unfold panel_xor_preview. intros -> ->. auto. Qed.

Lemma panel_closed (s : State) : showCamera s = false -> panel_xor_preview s.
Proof. intros Hs [Hshow _]. congruence. Qed.

Lemma no_preview (s : State) :
  JS.truthy_opt (selfiePreview s) = false -> panel_xor_preview s.
Proof. intros Hs [_ Hp]. congruence. Qed.

Lemma commit_panel_xor_preview (b a : State) :
  panel_xor_preview a -> panel_xor_preview (commit b a).
Proof.
  apply panel_xor_preview_frame;
    [apply commit_showCamera | apply commit_selfiePreview].
Qed.

(** X25.  Every event but the deferred start keeps the camera panel and
    the selfie preview apart; the deferred start does when no preview is
    shown. *)
Lemma panel_xor_preview_step (nav : Navigator) (s s' : State) (e : Event) :
  deferred_start s e = false ∨ JS.truthy_opt (selfiePreview s) = false ->
  panel_xor_preview s -> step nav s e = Some s' -> panel_xor_preview s'.
Proof.
  unfold step. intros Hnot Hinv Hstep.
  destruct (enabled s e) eqn:Hen; [| discriminate]. injection Hstep as <-.
  apply commit_panel_xor_preview.
  destruct (quiet_event s e) eqn:Hform.
  { destruct (quiet_event_camera nav e s Hform) as (Hshow & _ & _ & _ & Hp).
    by apply (panel_xor_preview_frame _ s). }
  destruct e; cbn [quiet_event] in Hform; try discriminate Hform;
    clear Hform; cbn [handle enabled deferred_start] in *.
  - apply no_preview.
    destruct (startCamera_frame nav s) as (_ & _ & _ & ->).
    apply andb_true_iff in Hen as [_ Hen]. by apply negb_true_iff in Hen.
  - apply panel_closed. by destruct (stopCamera_frame (stream s) s).
  - apply no_preview. unfold removeSelfie.
    by destruct (startCamera_frame nav
                   (setSelfiePreview None (setSelfieFile None s)))
      as (_ & _ & _ & ->).
  - apply panel_closed. by destruct (resetForm_frame (stream s) s).
  - destruct (video_onloadeddata_frame w h play_ok s) as (Hshow & _ & _ & Hp).
    by apply (panel_xor_preview_frame _ s).
  - set (s1 := set_pending (delete i (pending s)) s).
    assert (panel_xor_preview s1) as Hinv1 by exact Hinv.
    destruct (pending s !! i) as [[f t| |cv ty q c| |]|]; destruct o;
      try exact Hinv.
    + destruct (reader_onloadend_camera f t result s1)
        as (Hshow & _ & _ & _ & Hp).
      by apply (panel_xor_preview_frame _ s1).
    + destruct (startCamera_resume_cases gum s1)
        as [[m0 ->] | [[err ->] | ->]];
        [| by apply panel_closed | exact Hinv1].
      destruct (bind_video_frame m0
                  (setStream (Some m0)
                     (set_liveTracks ({[m0]} ∪ liveTracks s1) s1)))
        as (Hshow & _ & _ & Hp & _).
      by apply (panel_xor_preview_frame _ s1).
    + destruct (toBlob_callback_cases cv ty q c encoded payload s1)
        as [(Hshow & _) | (Hshow & _ & _ & _ & Hp)];
        [by apply panel_closed | by apply (panel_xor_preview_frame _ s1)].
    + destruct Hnot as [Hnot | Hnot]; [discriminate |].
      apply no_preview.
      by destruct (startCamera_frame nav s1) as (_ & _ & _ & ->).
Qed.

(** X26.  The preview appears only in the callback of a capture, and the
    panel opens over a preview only by the remove button or the deferred
    start. *)
Lemma panel_preview_transitions (nav : Navigator) (s s' : State)
    (e : Event) :
  step nav s e = Some s' ->
  (JS.truthy_opt (selfiePreview s) = false ->
   JS.truthy_opt (selfiePreview s') = true ->
   showCamera s' = false
   ∧ ∃ i n payload canvas type quality c,
       e = Resume i (BlobResult (Some n) payload)
       ∧ pending s !! i = Some (BlobTask canvas type quality c))
  ∧ (JS.truthy_opt (selfiePreview s) = true ->
     showCamera s = false -> showCamera s' = true ->
     (e = ClickRemoveSelfie ∧ selfiePreview s' = None)
     ∨ deferred_start s e = true).
Proof.
  unfold step. intros Hstep.
  destruct (enabled s e) eqn:Hen; [| discriminate]. injection Hstep as <-.
  rewrite commit_showCamera, commit_selfiePreview.
  destruct (quiet_event s e) eqn:Hform.
  { destruct (quiet_event_camera nav e s Hform) as (-> & _ & _ & _ & ->).
    split; congruence. }
  destruct e; cbn [quiet_event] in Hform; try discriminate Hform;
    clear Hform; cbn [handle enabled deferred_start] in *.
  - destruct (startCamera_frame nav s) as (_ & _ & _ & ->).
    apply andb_true_iff in Hen as [_ Hen]. apply negb_true_iff in Hen.
    split; congruence.
  - destruct (stopCamera_frame (stream s) s) as (-> & _ & -> & _).
    split; congruence.
  - unfold removeSelfie.
    destruct (startCamera_frame nav
                (setSelfiePreview None (setSelfieFile None s)))
      as (_ & _ & _ & ->).
    split; [discriminate | auto].
  - destruct (resetForm_frame (stream s) s) as (-> & _ & -> & _).
    split; [discriminate | congruence].
  - destruct (video_onloadeddata_frame w h play_ok s) as (-> & _ & _ & ->).
    split; congruence.
  - set (s1 := set_pending (delete i (pending s)) s).
    change (selfiePreview s) with (selfiePreview s1).
    change (showCamera s) with (showCamera s1).
    destruct (pending s !! i) as [[f t| |cv ty q c| |]|] eqn:Hi; destruct o;
      try (unfold submit_done; subst s1; simpl_state; split; congruence).
    + destruct (reader_onloadend_camera f t result s1)
        as (-> & _ & _ & _ & ->).
      split; congruence.
    + destruct (startCamera_resume_cases gum s1)
        as [[m0 ->] | [[err ->] | ->]];
        [| unfold startCamera_catch; simpl_state;
           split; [congruence | discriminate]
         | split; congruence].
      destruct (bind_video_frame m0
                  (setStream (Some m0)
                     (set_liveTracks ({[m0]} ∪ liveTracks s1) s1)))
        as (-> & _ & _ & -> & _).
      simpl_state. split; congruence.
    + destruct encoded as [n|]; cbn [toBlob_callback];
        [| simpl_state; split; congruence].
      split.
      * intros _ _. split; [unfold stopCamera; by destruct c | eauto 10].
      * unfold stopCamera. destruct c; simpl_state;
          intros _ _ Hopen; discriminate Hopen.
    + destruct (startCamera_frame nav s1) as (_ & _ & _ & ->).
      split; [congruence | intros _ _ _; by right].
Qed.

(** C7.  A selfie captured between the click on Next and the timer that
    Next sets: when the timer fires, [startCamera] opens the camera panel
    although the selfie preview is present. *)
Theorem deferred_start_over_preview :
  ∃ s, run desktop initial capture_before_timer = Some s
       ∧ reachable desktop s
       ∧ showCamera s = true
       ∧ selfiePreview s = Some "data:image/jpeg;base64,/9j/4AAQSkZJRgABAQ=="
       ∧ ¬ panel_xor_preview s.
Proof.
  eexists. split; [vm_compute; reflexivity |].
  split.
  { apply (run_reachable desktop capture_before_timer initial);
      [apply reachable_initial | vm_compute; reflexivity]. }
  split; [reflexivity |]. split; [reflexivity |].
  intros Hinv. apply Hinv. split; reflexivity.
Qed.

(** * Further properties of the component *)

(** ** What the validators write *)

Lemma validateStep1_state (s : State) :
  (validateStep1 s).1 = setErrors (errors (validateStep1 s).1) s.
Proof. reflexivity. Qed.

Lemma validateStep2_state (s : State) :
  (validateStep2 s).1 = setErrors (errors (validateStep2 s).1) s.
Proof. reflexivity. Qed.

Lemma needs_back_value (s : State) :
  needs_back s
  = match documentType (formData s) with
    | passport => false
    | id_card | drivers_license => true
    end.
Proof. apply needs_back_bool. Qed.

Lemma validateStep1_result (s : State) :
  (validateStep1 s).2
  = JS.truthy (country (formData s))
    && bool_decide (is_Some (documentFrontFile s))
    && (negb (needs_back s) || bool_decide (is_Some (documentBackFile s))).
Proof.
  unfold validateStep1, needs_back. cbn [snd].
  destruct (JS.truthy _); destruct (bool_decide (is_Some (documentFrontFile s)));
    destruct (bool_decide (_ ∈ _));
    destruct (bool_decide (is_Some (documentBackFile s)));
    cbn [negb andb orb]; rewrite ?no_keys_insert, ?no_keys_empty; reflexivity.
Qed.

Lemma validateStep1_valid (s : State) :
  (validateStep1 s).2 = true ↔ documents_valid s.
Proof.
  rewrite validateStep1_result, !andb_true_iff, orb_true_iff, negb_true_iff,
    truthy_spec, !bool_decide_eq_true.
  unfold documents_valid. split.
  - intros [[Hc Hf] Hb]. repeat split; try assumption.
    intros Hnb. destruct Hb as [Hb | Hb]; [congruence | exact Hb].
  - intros (Hc & Hf & Hb). repeat split; try assumption.
    destruct (needs_back s); [right; by apply Hb | by left].
Qed.

Lemma validateStep2_result (s : State) :
  (validateStep2 s).2 = bool_decide (is_Some (selfieFile s)).
Proof.
  unfold validateStep2. cbn [snd].
  destruct (bool_decide (is_Some (selfieFile s))); cbn [negb];
    rewrite ?no_keys_insert, ?no_keys_empty; reflexivity.
Qed.

(** X1.  [validateStep1] writes a new error object: it holds the message
    of each failing field of step 1 and no other key, whatever the errors
    were before, and nothing else of the state changes. *)
Theorem validateStep1_errors (s : State) :
  let s' := (validateStep1 s).1 in
  s' = setErrors (errors s') s
  ∧ errors s' !! "country"
    = (if JS.truthy (country (formData s)) then None
       else Some (Some "Country is required"))
  ∧ errors s' !! "documentFront"
    = match documentFrontFile s with
      | Some _ => None
      | None => Some (Some "Please upload the front of your document")
      end
  ∧ errors s' !! "documentBack"
    = match documentType (formData s), documentBackFile s with
      | (id_card | drivers_license), None =>
          Some (Some "Please upload the back of your document")
      | _, _ => None
      end
  ∧ (∀ k : string,
       k ∉ ["country"; "documentFront"; "documentBack"] ->
       errors s' !! k = None)
  ∧ (∀ e : JS.obj, errors (validateStep1 (setErrors e s)).1 = errors s').
Proof.
  cbn zeta. split; [reflexivity |].
  unfold validateStep1. cbn [fst]. simpl_state.
  rewrite needs_back_bool, !is_Some_bool.
  split; [| split; [| split; [| split; [| reflexivity]]]].
  - destruct (JS.truthy _), (documentFrontFile s), (documentBackFile s),
      (documentType (formData s)); cbn [negb andb]; by simplify_map_eq.
  - destruct (JS.truthy _), (documentFrontFile s), (documentBackFile s),
      (documentType (formData s)); cbn [negb andb]; by simplify_map_eq.
  - destruct (JS.truthy _), (documentFrontFile s), (documentBackFile s),
      (documentType (formData s)); cbn [negb andb]; by simplify_map_eq.
  - intros k Hk. rewrite !not_elem_of_cons in Hk.
    destruct Hk as (Hk1 & Hk2 & Hk3 & _).
    destruct (JS.truthy _), (documentFrontFile s), (documentBackFile s),
      (documentType (formData s)); cbn [negb andb]; by simplify_map_eq.
Qed.

(** X2.  [validateStep2] writes a new error object as well: the selfie
    message when there is no selfie file, no key at all otherwise; the
    errors of step 1 and of the camera are dropped. *)
Theorem validateStep2_errors (s : State) :
  let s' := (validateStep2 s).1 in
  s' = setErrors (errors s') s
  ∧ errors s'
    = match selfieFile s with
      | Some _ => ∅
      | None => {[ "selfie" := Some "Please capture a selfie" ]}
      end
  ∧ (∀ k : string, k ≠ "selfie" -> errors s' !! k = None).
Proof.
  cbn zeta. split; [reflexivity |].
  unfold validateStep2. cbn [fst]. simpl_state. rewrite is_Some_bool.
  destruct (selfieFile s); cbn [negb]; split; try reflexivity;
    intros k Hk; by simplify_map_eq.
Qed.

(** ** Form fields, files and the Next button *)

(** X3.  Choosing a document type decides whether the back of the document
    is asked for: after the change, step 1 is valid exactly when the country
    and the front file are there and the type is a passport or the back
    file is there, and the back error is written exactly when it is
    missing for an identity card or a driving licence. *)
Theorem documentType_change_validation (d : DocumentType) (s : State) :
  let s1 := handleInputChange (SelectDocumentType d) s in
  documentType (formData s1) = d
  ∧ country (formData s1) = country (formData s)
  ∧ ((validateStep1 s1).2 = true ↔
       country (formData s) ≠ EmptyString
       ∧ is_Some (documentFrontFile s)
       ∧ (d = passport ∨ is_Some (documentBackFile s)))
  ∧ JS.get (errors (validateStep1 s1).1) "documentBack"
    = match d, documentBackFile s with
      | (id_card | drivers_license), None =>
          Some "Please upload the back of your document"
      | _, _ => None
      end.
Proof.
  cbn zeta.
  assert (formData (handleInputChange (SelectDocumentType d) s)
          = {| documentType := d; country := country (formData s) |}) as Hfd
      by (unfold handleInputChange; by destruct (JS.truthy_opt _)).
  assert (documentFrontFile (handleInputChange (SelectDocumentType d) s)
          = documentFrontFile s) as Hff
      by (unfold handleInputChange; by destruct (JS.truthy_opt _)).
  assert (documentBackFile (handleInputChange (SelectDocumentType d) s)
          = documentBackFile s) as Hbf
      by (unfold handleInputChange; by destruct (JS.truthy_opt _)).
  rewrite Hfd. split; [reflexivity |]. split; [reflexivity |]. split.
  - rewrite validateStep1_valid. unfold documents_valid.
    rewrite needs_back_value, Hfd, Hff, Hbf. cbn [documentType country].
    split; intros (Hc & Hf & Hb); repeat split; try assumption.
    + destruct d; [by left | right; by apply Hb..].
    + intros Hd. destruct Hb as [-> | Hb]; [discriminate | exact Hb].
  - unfold validateStep1, JS.get. cbn [fst]. simpl_state.
    rewrite needs_back_bool, !is_Some_bool, Hfd, Hff, Hbf.
    cbn [documentType country].
    destruct (JS.truthy _), (documentFrontFile s), (documentBackFile s), d;
      cbn [negb andb]; by simplify_map_eq.
Qed.

(** X4.  The size error of a slot stays while a later file of that slot is
    being decoded and is cleared, with the file stored, when the decoding
    ends. *)
Theorem size_error_until_next_upload (big small : File) (type : Slot)
    (result : option string) (s : State) :
  (max_file_size < file_size big)%N ->
  (file_size small <= max_file_size)%N ->
  let s1 := handleFileUpload (Some big) type s in
  let s2 := handleFileUpload (Some small) type s1 in
  let s3 := reader_onloadend small type result s2 in
  JS.get (errors s2) (slot_error_key type)
  = Some "File size must be less than 5MB"
  ∧ slot_file type s2 = slot_file type s
  ∧ JS.get (errors s3) (slot_error_key type) = None
  ∧ slot_file type s3 = Some small
  ∧ slot_preview type s3 = result.
Proof.
  intros Hbig Hsmall. cbn zeta. unfold handleFileUpload.
  apply N.ltb_lt in Hbig. apply N.ltb_ge in Hsmall. rewrite Hbig, Hsmall.
  rewrite size_error_key_slot.
  destruct type; simpl_state; cbn [slot_error_key slot_file slot_preview
    reader_onloadend]; simpl_state; rewrite !get_insert_eq; repeat split.
Qed.

Lemma size_error_until_next_upload_witness :
  JS.get
    (errors
       (reader_onloadend scan_png back (Some "data:image/png;base64,AA==")
          (handleFileUpload (Some scan_png) back
             (handleFileUpload (Some huge_png) back initial))))
    "documentBack" = None.
Proof.
  destruct (size_error_until_next_upload huge_png scan_png back
              (Some "data:image/png;base64,AA==") initial)
    as (_ & _ & Hclear & _).
  - reflexivity.
  - vm_compute. discriminate.
  - exact Hclear.
Defined.

(** The outcomes of a click on Next. *)
Lemma handleNext_cases (s : State) :
  handleNext s
  = if currentStep s =? 1 then
      if (validateStep1 s).2 then
        if negb (showCamera s) && negb (bool_decide (is_Some (selfieFile s)))
        then add_task StartCameraTimer
               (setCurrentStep 2 (setErrors ∅ s))
        else setCurrentStep 2 (setErrors ∅ s)
      else (validateStep1 s).1
    else if currentStep s =? 2 then
      if (validateStep2 s).2 then handleSubmit (setErrors ∅ s)
      else (validateStep2 s).1
    else s.
Proof.
  unfold handleNext. destruct (currentStep s =? 1).
  - destruct (validateStep1 s) as [s1 ok] eqn:Hv. cbn [fst snd].
    destruct ok; [| reflexivity].
    assert (s1 = setErrors ∅ s) as ->; [| reflexivity].
    unfold validateStep1 in Hv. injection Hv as <- Hok.
    f_equal. unfold JS.no_keys in Hok.
    apply bool_decide_eq_true in Hok. by apply map_size_empty_iff in Hok.
  - destruct (currentStep s =? 2); [| reflexivity].
    destruct (validateStep2 s) as [s1 ok] eqn:Hv. cbn [fst snd].
    destruct ok; [| reflexivity].
    assert (s1 = setErrors ∅ s) as ->; [| reflexivity].
    unfold validateStep2 in Hv. injection Hv as <- Hok.
    f_equal. unfold JS.no_keys in Hok.
    apply bool_decide_eq_true in Hok. by apply map_size_empty_iff in Hok.
Qed.

(** X5.  On step 1 the click on Next goes to step 2 exactly when the
    documents are valid, with the errors emptied, and it sets the timer of
    the camera exactly when the panel is closed and there is no selfie
    file; otherwise it stays on step 1 with the errors of the failing
    fields.  It never starts a submission. *)
Theorem handleNext_step1 (s : State) :
  currentStep s = 1 ->
  (documents_valid s ->
   currentStep (handleNext s) = 2
   ∧ errors (handleNext s) = ∅
   ∧ pending (handleNext s)
     = (if negb (showCamera s) && negb (bool_decide (is_Some (selfieFile s)))
        then pending s ++ [StartCameraTimer] else pending s)%list)
  ∧ (¬ documents_valid s ->
     currentStep (handleNext s) = 1
     ∧ errors (handleNext s) ≠ ∅
     ∧ pending (handleNext s) = pending s)
  ∧ isSubmitting (handleNext s) = isSubmitting s
  ∧ submitSuccess (handleNext s) = submitSuccess s.
Proof.
  intros Hstep. rewrite handleNext_cases, Hstep. cbn [Z.eqb Pos.eqb].
  pose proof (validateStep1_valid s) as Hvalid.
  destruct (validateStep1 s).2 eqn:Hok.
  - assert (documents_valid s) as Hv by (by apply Hvalid).
    split; [intros _ | split; [intros Hn; by destruct Hn |]].
    + destruct (negb _ && _); repeat split.
    + destruct (negb _ && _); split; reflexivity.
  - assert (¬ documents_valid s) as Hv.
    { intros Hd. apply Hvalid in Hd. congruence. }
    split; [intros Hd; by destruct Hv |].
    split; [intros _ | split; reflexivity].
    split; [exact Hstep |]. split; [| reflexivity].
    intros Hempty. revert Hok. unfold validateStep1 in *. cbn [fst snd] in *.
    simpl_state. rewrite Hempty. by rewrite no_keys_empty.
Qed.

Lemma handleNext_step1_witness :
  currentStep (handleNext initial) = 1 ∧ errors (handleNext initial) ≠ ∅.
Proof.
  destruct (handleNext_step1 initial) as (_ & Hstay & _).
  - reflexivity.
  - destruct Hstay as (H1 & H2 & _); [| split; assumption].
    intros (Hc & _). apply Hc. reflexivity.
Defined.

(** X6.  On step 2 the click on Next starts the submission exactly when
    there is a selfie file: it sets [isSubmitting], empties the errors and
    suspends the submission timer; without a selfie it only writes the
    selfie error.  The step does not change. *)
Theorem handleNext_step2 (s : State) :
  currentStep s = 2 ->
  (is_Some (selfieFile s) ->
   handleNext s
   = add_task SubmitTimer (setIsSubmitting true (setErrors ∅ s)))
  ∧ (selfieFile s = None ->
     handleNext s
     = setErrors {[ "selfie" := Some "Please capture a selfie" ]} s)
  ∧ currentStep (handleNext s) = 2.
Proof.
  intros Hstep. rewrite handleNext_cases, Hstep. cbn [Z.eqb Pos.eqb].
  rewrite validateStep2_result, is_Some_bool.
  destruct (selfieFile s) as [f|] eqn:Hf.
  - split; [intros _; reflexivity |]. split; [discriminate | exact Hstep].
  - split; [intros [? [=]] |]. split; [| exact Hstep].
    intros _. unfold validateStep2. cbn [fst]. rewrite is_Some_bool, Hf.
    reflexivity.
Qed.

Lemma handleNext_step2_witness :
  handleNext (setCurrentStep 2 initial)
  = setErrors {[ "selfie" := Some "Please capture a selfie" ]}
      (setCurrentStep 2 initial).
Proof.
  destruct (handleNext_step2 (setCurrentStep 2 initial)) as (_ & Hnone & _).
  - reflexivity.
  - apply Hnone. reflexivity.
Defined.

(** X7.  Removing the front file empties the slot, and the next click on
    Next stays on step 1 with the front error. *)
Theorem removed_front_blocks_next (s : State) :
  currentStep s = 1 ->
  documentFrontFile (clearFront s) = None
  ∧ documentFrontPreview (clearFront s) = None
  ∧ documentBackFile (clearFront s) = documentBackFile s
  ∧ errors (clearFront s) = errors s
  ∧ currentStep (handleNext (clearFront s)) = 1
  ∧ JS.get (errors (handleNext (clearFront s))) "documentFront"
    = Some "Please upload the front of your document"
  ∧ pending (handleNext (clearFront s)) = pending s.
Proof.
  intros Hstep. split; [reflexivity |]. split; [reflexivity |].
  split; [reflexivity |]. split; [reflexivity |].
  rewrite handleNext_cases.
  change (currentStep (clearFront s)) with (currentStep s). rewrite Hstep.
  cbn [Z.eqb Pos.eqb]. rewrite validateStep1_result.
  change (documentFrontFile (clearFront s)) with (@None File).
  rewrite is_Some_bool, andb_false_r. cbn [andb].
  split; [exact Hstep |]. split; [| reflexivity].
  unfold validateStep1, JS.get. cbn [fst]. simpl_state.
  change (documentFrontFile (clearFront s)) with (@None File).
  rewrite !is_Some_bool. cbn [negb].
  destruct (_ && _); by simplify_map_eq.
Qed.

Lemma removed_front_blocks_next_witness :
  currentStep (handleNext (clearFront initial)) = 1.
Proof.
  destruct (removed_front_blocks_next initial) as (_ & _ & _ & _ & H & _);
    [reflexivity | exact H].
Defined.

(** ** Starting the camera *)

Lemma checks_error_message (nav : Navigator) (err : JsError) :
  startCamera_checks nav = Some err ->
  camera_error_message err
  = "Unable to access camera. " +:+ err_message err.
Proof.
  unfold startCamera_checks.
  repeat case_match; intros [= <-]; vm_compute; reflexivity.
Qed.

(** X8.  The checks of [startCamera] pass exactly when
    [navigator.mediaDevices.getUserMedia] exists and, on Android, the page
    is served over https or from localhost; the prefixed functions of older
    browsers make no difference. *)
Theorem startCamera_checks_pass (nav : Navigator) :
  startCamera_checks nav = None ↔
  mediaDevices nav = true
  ∧ mediaDevices_getUserMedia nav = true
  ∧ (JS.test_Android_i (userAgent nav) = false
     ∨ location_protocol nav = "https:"
     ∨ location_hostname nav = "localhost").
Proof.
  unfold startCamera_checks.
  destruct (mediaDevices nav); cbn [negb].
  - destruct (mediaDevices_getUserMedia nav); cbn [negb].
    + destruct (JS.test_Android_i _); cbn [andb].
      * destruct (String.eqb_spec (location_protocol nav) "https:") as [Hp|Hp];
          destruct (String.eqb_spec (location_hostname nav) "localhost")
            as [Hh|Hh]; cbn [negb andb]; split; try discriminate; auto.
        intros (_ & _ & [? | [? | ?]]); congruence.
      * split; auto.
    + split; [discriminate | intros (_ & ? & _); discriminate].
  - destruct (_ && _); split; try discriminate;
      intros (? & _); discriminate.
Qed.

(** X9.  When a check fails, [startCamera] asks for no device: no callback
    is suspended, the panel is closed again, the stream and its tracks are
    untouched, and the message of the check, after the common prefix, is
    written both to [cameraError] and to the selfie error. *)
Theorem startCamera_fails_fast (nav : Navigator) (err : JsError)
    (s : State) :
  startCamera_checks nav = Some err ->
  pending (startCamera nav s) = pending s
  ∧ showCamera (startCamera nav s) = false
  ∧ stream (startCamera nav s) = stream s
  ∧ liveTracks (startCamera nav s) = liveTracks s
  ∧ cameraError (startCamera nav s)
    = Some ("Unable to access camera. " +:+ err_message err)
  ∧ JS.get (errors (startCamera nav s)) "selfie"
    = Some ("Unable to access camera. " +:+ err_message err)
  ∧ (err_message err = unsupported_message
     ∨ err_message err = android_https_message).
Proof.
  intros Hcheck. unfold startCamera. rewrite Hcheck.
  unfold startCamera_catch. simpl_state.
  rewrite get_insert_eq, (checks_error_message nav err Hcheck).
  repeat split.
  revert Hcheck. unfold startCamera_checks.
  repeat case_match; intros [= <-]; auto.
Qed.

Lemma startCamera_fails_fast_witness :
  pending (startCamera legacy_browser initial) = []
  ∧ showCamera (startCamera legacy_browser initial) = false
  ∧ cameraError (startCamera legacy_browser initial)
    = Some ("Unable to access camera. " +:+ unsupported_message).
Proof.
  destruct (startCamera_fails_fast legacy_browser
              (new_Error unsupported_message) initial)
    as (Hp & Hs & _ & _ & He & _).
  - reflexivity.
  - repeat split; assumption.
Defined.

(** X10.  A start that the browser refuses leaves its message under the
    selfie key, and a later start does not remove it: the panel opens and
    [cameraError] is cleared while the old message is still in the errors,
    until a capture or a validation replaces them. *)
Theorem retry_keeps_selfie_error (nav : Navigator) (gum : GetUserMedia)
    (s : State) :
  startCamera_checks nav = None ->
  (∀ c, c ∈ constraintsOptions -> ∃ e, gum c = inr e) ->
  let s1 := startCamera_resume gum s in
  let s2 := startCamera nav s1 in
  showCamera s1 = false
  ∧ JS.truthy_opt (cameraError s1) = true
  ∧ JS.get (errors s1) "selfie" = cameraError s1
  ∧ showCamera s2 = true
  ∧ cameraError s2 = None
  ∧ JS.get (errors s2) "selfie" = cameraError s1
  ∧ pending s2 = (pending s ++ [AcquireTask])%list.
Proof.
  intros Hcheck Hall. cbn zeta.
  destruct (acquire_all_fail gum constraintsOptions Hall no_attempts)
    as (Hm & _ & Hlast).
  destruct (Hall {| video := VideoFlag true; audio := false |}) as [e He].
  { unfold constraintsOptions. rewrite !elem_of_cons. auto. }
  change (last constraintsOptions)
    with (Some {| video := VideoFlag true; audio := false |}) in Hlast.
  cbv beta iota in Hlast. rewrite He in Hlast.
  assert (startCamera_resume gum s = startCamera_catch e s) as ->
      by (unfold startCamera_resume; by rewrite Hm, Hlast).
  unfold startCamera. rewrite Hcheck.
  unfold startCamera_catch. simpl_state. rewrite get_insert_eq.
  repeat split.
Qed.

Lemma retry_keeps_selfie_error_witness :
  JS.get
    (errors (startCamera desktop
               (startCamera_resume denying_browser initial)))
    "selfie" = Some (camera_error_message not_allowed)
  ∧ cameraError (startCamera desktop
                   (startCamera_resume denying_browser initial)) = None.
Proof.
  destruct (retry_keeps_selfie_error desktop denying_browser initial)
    as (_ & _ & _ & _ & Hnone & Hkept & _).
  - reflexivity.
  - intros c _. by exists not_allowed.
  - split; [rewrite Hkept; reflexivity | exact Hnone].
Defined.

(** ** Invariants of the reachable states *)

Lemma handle_refs (nav : Navigator) (e : Event) (s : State) :
  (is_Some (videoRef s) -> is_Some (videoRef (handle nav e s)))
  ∧ (is_Some (canvasRef s) -> is_Some (canvasRef (handle nav e s))).
Proof.
  destruct e; cbn [handle].
  - open_handlers. repeat case_match; simpl_state; unfold is_Some in *; naive_solver.
  - open_handlers. repeat case_match; simpl_state; unfold is_Some in *; naive_solver.
  - open_handlers. simpl_state; unfold is_Some in *; naive_solver.
  - open_handlers. simpl_state; unfold is_Some in *; naive_solver.
  - rewrite handleNext_cases. unfold handleSubmit.
    repeat case_match; simpl_state; unfold is_Some in *; naive_solver.
  - open_handlers. simpl_state; unfold is_Some in *; naive_solver.
  - open_handlers. repeat case_match; simpl_state; unfold is_Some in *; naive_solver.
  - open_handlers. repeat case_match; simpl_state; unfold is_Some in *; naive_solver.
  - open_handlers. repeat case_match; simpl_state; unfold is_Some in *; naive_solver.
  - open_handlers. repeat case_match; simpl_state; unfold is_Some in *; naive_solver.
  - open_handlers. repeat case_match; simpl_state; unfold is_Some in *; naive_solver.
  - open_handlers. repeat case_match; simpl_state; unfold is_Some in *; naive_solver.
  - open_handlers. simpl_state; unfold is_Some in *; naive_solver.
  - destruct (pending s !! i) as [[f t| |cv ty q c| |]|]; destruct o; auto;
      try (destruct (startCamera_resume_cases gum
                       (set_pending (delete i (pending s)) s))
             as [[m0 ->] | [[err ->] | ->]]);
      open_handlers; repeat case_match; simpl_state;
      unfold is_Some in *; naive_solver.
Qed.

Lemma cleanup_canvasRef (b a : State) :
  canvasRef (effect_cleanup b a) = canvasRef a.
Proof.
  unfold effect_cleanup, stop_tracks.
  destruct (stream b); try case_bool_decide; reflexivity.
Qed.

Lemma refs_mounted_step (nav : Navigator) (s s' : State) (e : Event) :
  refs_mounted s -> step nav s e = Some s' -> refs_mounted s'.
Proof.
  unfold step. intros Hinv Hstep.
  destruct (enabled s e); [| discriminate]. injection Hstep as <-.
  unfold refs_mounted, commit, update_refs in *.
  set (a := effect_cleanup s (handle nav e s)).
  destruct (camera_rendered a) eqn:Ha.
  - destruct (camera_rendered s).
    + rewrite Ha. unfold a. rewrite cleanup_videoRef, cleanup_canvasRef.
      destruct Hinv as [Hv Hc].
      destruct (handle_refs nav e s) as [Hv' Hc']. auto.
    + change (camera_rendered
                (set_canvasRef (Some fresh_canvas)
                   (set_videoRef (Some fresh_video) a)))
        with (camera_rendered a).
      rewrite Ha. split; eauto.
  - change (camera_rendered (set_canvasRef None (set_videoRef None a)))
      with (camera_rendered a).
    rewrite Ha. split; reflexivity.
Qed.

Lemma step_gated_frame (a b : State) :
  currentStep a = currentStep b -> formData a = formData b ->
  documentFrontFile a = documentFrontFile b ->
  documentBackFile a = documentBackFile b ->
  step_gated b -> step_gated a.
Proof.
  unfold step_gated, documents_valid, needs_back. intros -> -> -> ->. auto.
Qed.

Lemma step_gated_step1 (s : State) : currentStep s = 1 -> step_gated s.
Proof. intros Hs. split; [by left | intros H2; congruence]. Qed.

Lemma handle_step_gated (nav : Navigator) (e : Event) (s : State) :
  enabled s e = true -> step_gated s -> step_gated (handle nav e s).
Proof.
  intros Hen Hinv.
  destruct e; cbn [handle enabled] in *;
    unfold step1_rendered, step2_rendered, camera_rendered in Hen;
    rewrite ?andb_true_iff, ?Z.eqb_eq, ?Z.ltb_lt in Hen.
  - apply step_gated_step1. open_handlers.
    destruct (JS.truthy_opt _); simpl_state; tauto.
  - apply (step_gated_frame _ s); try done;
      open_handlers; repeat case_match; reflexivity.
  - apply step_gated_step1. cbn. tauto.
  - apply step_gated_step1. cbn. tauto.
  - rewrite handleNext_cases. destruct Hinv as [[H1 | H2] Hgate].
    + rewrite H1. cbn [Z.eqb Pos.eqb].
      destruct (validateStep1 s).2 eqn:Hok;
        [| by apply step_gated_step1].
      apply validateStep1_valid in Hok.
      assert (step_gated (setCurrentStep 2 (setErrors ∅ s))) as Hg
          by (split; [by right | intros _; exact Hok]).
      destruct (_ && _); [| exact Hg].
      by apply (step_gated_frame _ (setCurrentStep 2 (setErrors ∅ s))).
    + rewrite H2. cbn [Z.eqb Pos.eqb].
      apply (step_gated_frame _ s); try (by destruct (validateStep2 s).2).
      split; auto.
  - destruct Hinv as [[H1 | H2] _]; [lia |].
    apply step_gated_step1. unfold handlePrevious. simpl_state. lia.
  - apply (step_gated_frame _ s); try done;
      open_handlers; repeat case_match; reflexivity.
  - apply (step_gated_frame _ s); try done;
      open_handlers; repeat case_match; reflexivity.
  - apply (step_gated_frame _ s); try done;
      open_handlers; repeat case_match; reflexivity.
  - apply (step_gated_frame _ s); try done;
      open_handlers; repeat case_match; reflexivity.
  - apply step_gated_step1. open_handlers. by destruct (stream s).
  - apply (step_gated_frame _ s); try done;
      open_handlers; repeat case_match; reflexivity.
  - apply (step_gated_frame _ s); try done.
  - destruct (pending s !! i) as [[f t| |cv ty q c| |]|]; destruct o;
      try exact Hinv;
      try (apply (step_gated_frame _ s); try done;
           try match goal with
               | |- context [startCamera_resume ?g ?x] =>
                   destruct (startCamera_resume_cases g x)
                     as [[m0 ->] | [[err ->] | ->]]
               end;
           open_handlers; repeat case_match; reflexivity).
    destruct Hinv as [Hstep Hgate]. split; [by destruct t |].
    intros H2. destruct t; destruct (Hgate H2) as (Hc & Hf & Hb);
      repeat split; cbn; eauto.
Qed.

Lemma step_gated_step (nav : Navigator) (s s' : State) (e : Event) :
  step_gated s -> step nav s e = Some s' -> step_gated s'.
Proof.
  unfold step. intros Hinv Hstep.
  destruct (enabled s e) eqn:Hen; [| discriminate]. injection Hstep as <-.
  apply (step_gated_frame _ (handle nav e s));
    [apply commit_currentStep | apply commit_formData
    | apply commit_documentFrontFile | apply commit_documentBackFile
    | by apply handle_step_gated].
Qed.

Lemma submit_timers_app (l : list Task) (t : Task) :
  submit_timers (l ++ [t])
  = (submit_timers l + (if is_submit_timer t then 1 else 0))%nat.
Proof.
  induction l as [|t0 l IH]; cbn; [destruct (is_submit_timer t); lia |].
  rewrite IH. lia.
Qed.

Lemma submit_timers_delete (l : list Task) (i : nat) (t : Task) :
  l !! i = Some t ->
  submit_timers l
  = (submit_timers (delete i l) + (if is_submit_timer t then 1 else 0))%nat.
Proof.
  revert i. induction l as [|t0 l IH]; intros [|i] Hi; try discriminate.
  - injection Hi as ->. cbn. destruct (is_submit_timer t); lia.
  - cbn in Hi. change (delete (S i) (t0 :: l)) with (t0 :: delete i l).
    cbn [submit_timers]. rewrite (IH i Hi).
    destruct (is_submit_timer t0), (is_submit_timer t); lia.
Qed.

Lemma one_submission_frame (a b : State) :
  submit_timers (pending a) = submit_timers (pending b) ->
  isSubmitting a = isSubmitting b -> submitSuccess a = submitSuccess b ->
  one_submission b -> one_submission a.
Proof. unfold one_submission. intros -> -> ->. auto. Qed.

Lemma handle_one_submission (nav : Navigator) (e : Event) (s : State) :
  enabled s e = true -> one_submission s ->
  one_submission (handle nav e s).
Proof.
  intros Hen Hinv.
  destruct e; cbn [handle enabled] in *;
    try (apply (one_submission_frame _ s);
         [ open_handlers; repeat case_match; simpl_state;
           rewrite ?submit_timers_app; cbn [is_submit_timer]; try lia;
           reflexivity ..
         | exact Hinv ]).
  - unfold form_rendered in Hen.
    apply andb_true_iff in Hen as [Hform Hidle].
    apply negb_true_iff in Hform, Hidle.
    destruct Hinv as [Hcount _]. rewrite Hidle in Hcount.
    rewrite handleNext_cases. unfold handleSubmit, one_submission.
    rewrite (validateStep1_state s), (validateStep2_state s).
    destruct (currentStep s =? 1); [| destruct (currentStep s =? 2)];
      try destruct (validateStep1 s).2; try destruct (validateStep2 s).2;
      try destruct (negb (showCamera s) && _);
      simpl_state; rewrite ?submit_timers_app; cbn [is_submit_timer];
      rewrite ?Hidle, ?Hform, ?Hcount;
      split; try reflexivity; try discriminate.
  - destruct Hinv as [Hcount Hdone]. specialize (Hdone Hen).
    unfold one_submission, resetForm.
    destruct (stream s); simpl_state; split; try discriminate;
      exact Hcount.
  - destruct (pending s !! i) as [t|] eqn:Hi; [| destruct o; exact Hinv].
    pose proof (submit_timers_delete (pending s) i t Hi) as Hdel.
    destruct Hinv as [Hcount Hdone].
    destruct t as [f ty| |cv ty q c| |]; destruct o;
      try (split; assumption); cbn [is_submit_timer] in Hdel;
      try (apply (one_submission_frame _ s); [| | | by split];
           try match goal with
               | |- context [startCamera_resume ?g ?x] =>
                   destruct (startCamera_resume_cases g x)
                     as [[m0 ->] | [[err ->] | ->]]
               end;
           open_handlers; repeat case_match; simpl_state;
           rewrite ?submit_timers_app; cbn [is_submit_timer];
           first [reflexivity | lia | congruence]).
    unfold one_submission, submit_done. simpl_state.
    split; [| reflexivity].
    destruct (isSubmitting s); lia.
Qed.

Lemma one_submission_step (nav : Navigator) (s s' : State) (e : Event) :
  one_submission s -> step nav s e = Some s' -> one_submission s'.
Proof.
  unfold step. intros Hinv Hstep.
  destruct (enabled s e) eqn:Hen; [| discriminate]. injection Hstep as <-.
  apply (one_submission_frame _ (handle nav e s));
    [by rewrite commit_pending | unfold_commit | apply commit_submitSuccess
    | by apply handle_one_submission].
Qed.

Lemma reachable_form_invariants (nav : Navigator) (s : State) :
  reachable nav s -> refs_mounted s ∧ step_gated s ∧ one_submission s.
Proof.
  induction 1 as [|s e s' _ (IHr & IHg & IHs) Hstep].
  - split; [split; reflexivity |]. split; [by apply step_gated_step1 |].
    split; [reflexivity | discriminate].
  - split; [eapply refs_mounted_step; eauto |].
    split; [eapply step_gated_step | eapply one_submission_step]; eauto.
Qed.

Lemma handle_video_follows (nav : Navigator) (e : Event) (s : State) :
  video_follows_stream s ->
  showCamera (handle nav e s) = true ->
  video_follows_stream (handle nav e s).
Proof.
  intros Hinv. unfold video_follows_stream in *.
  destruct e; cbn [handle];
    try (rewrite handleNext_cases; unfold handleSubmit;
         rewrite (validateStep1_state s), (validateStep2_state s));
    try (destruct (pending s !! i) as [[f t| |cv ty q c| |]|]; destruct o);
    try match goal with
        | |- context [startCamera_resume ?g ?x] =>
            destruct (startCamera_resume_cases g x)
              as [[m0 ->] | [[err ->] | ->]]
        end;
    open_handlers; repeat case_match; simpl_state;
    intros Hshow v9 m9 Hv9 Hsrc9; simplify_eq; eauto.
Qed.

Lemma video_follows_stream_step (nav : Navigator) (s s' : State)
    (e : Event) :
  video_follows_stream s -> step nav s e = Some s' ->
  video_follows_stream s'.
Proof.
  unfold step. intros Hinv Hstep.
  destruct (enabled s e) eqn:Hen; [| discriminate]. injection Hstep as <-.
  intros v m Hv Hsrc. rewrite commit_stream.
  destruct (commit_videoRef_cases s (handle nav e s))
    as [Hnone | [Hfresh | [Hkept Hshow]]].
  - rewrite Hnone in Hv. discriminate.
  - rewrite Hfresh in Hv. injection Hv as <-. discriminate.
  - rewrite Hkept in Hv.
    exact (handle_video_follows nav e s Hinv Hshow v m Hv Hsrc).
Qed.

Lemma reachable_video_follows (nav : Navigator) (s : State) :
  reachable nav s -> video_follows_stream s.
Proof.
  induction 1 as [|s e s' _ IH Hstep]; [intros v m [=] |].
  eapply video_follows_stream_step; eauto.
Qed.

(** ** What holds in every reachable state *)

(** X11.  At most one stream has live tracks, and it is the one held in
    [stream]: a stream that was replaced or dropped has been stopped. *)
Theorem one_live_stream (nav : Navigator) (s : State) :
  reachable nav s ->
  (∀ m, m ∈ liveTracks s -> stream s = Some m)
  ∧ (∀ m1 m2, m1 ∈ liveTracks s -> m2 ∈ liveTracks s -> m1 = m2)
  ∧ (stream s = None -> liveTracks s = ∅).
Proof.
  intros Hreach. destruct (reachable_invariants nav s Hreach) as [Hown _].
  split; [exact Hown |]. split.
  - intros m1 m2 H1 H2. apply Hown in H1, H2. congruence.
  - intros Hnone. apply set_eq. intros m. split.
    + intros Hin. apply Hown in Hin. congruence.
    + intros Hin. by apply not_elem_of_empty in Hin.
Qed.

Lemma one_live_stream_witness : stream streaming = Some 7%nat.
Proof.
  destruct (one_live_stream desktop streaming) as [Hown _];
    [exact streaming_reachable |].
  apply Hown. destruct streaming_state as (_ & _ & _ & Hlive & _).
  rewrite Hlive. by apply elem_of_singleton.
Defined.

(** X12.  The video and canvas elements exist exactly while the camera
    panel is on the page, so a click on the capture button always finds
    both: the first guard of [capturePhoto] does not fire on a click. *)
Theorem capture_button_has_elements (nav : Navigator) (env : CaptureEnv)
    (s : State) :
  reachable nav s ->
  (camera_rendered s = true ↔ is_Some (videoRef s))
  ∧ (is_Some (videoRef s) ↔ is_Some (canvasRef s))
  ∧ (enabled s (ClickCapture env) = true ->
     ∃ v c, videoRef s = Some v ∧ canvasRef s = Some c).
Proof.
  intros Hreach.
  destruct (reachable_form_invariants nav s Hreach) as (Hrefs & _ & _).
  unfold refs_mounted in Hrefs.
  destruct (camera_rendered s) eqn:Hr.
  - destruct Hrefs as [[v Hv] [c Hc]]. rewrite Hv, Hc.
    split; [split; eauto |]. split; [split; eauto |]. eauto.
  - destruct Hrefs as [Hv Hc]. rewrite Hv, Hc.
    split; [split; [discriminate | intros [? [=]]] |].
    split; [split; intros [? [=]] |].
    cbn [enabled]. rewrite Hr. discriminate.
Qed.

Lemma capture_button_has_elements_witness :
  is_Some (videoRef streaming) ∧ is_Some (canvasRef streaming).
Proof.
  destruct (capture_button_has_elements desktop (mkCaptureEnv true None)
              streaming) as (Hv & Hc & _).
  - exact streaming_reachable.
  - assert (is_Some (videoRef streaming)) as H by (by apply Hv).
    split; [exact H | by apply Hc].
Defined.

(** X13.  The step is always 1 or 2, and step 2 is shown only over
    documents that pass the validation of step 1: the country, the front
    file and, for a card or a licence, the back file are there. *)
Theorem step2_has_valid_documents (nav : Navigator) (s : State) :
  reachable nav s ->
  (currentStep s = 1 ∨ currentStep s = 2)
  ∧ (currentStep s = 2 ->
     country (formData s) ≠ EmptyString
     ∧ is_Some (documentFrontFile s)
     ∧ (documentType (formData s) ≠ passport ->
        is_Some (documentBackFile s))).
Proof.
  intros Hreach.
  destruct (reachable_form_invariants nav s Hreach) as (_ & [H12 Hgate] & _).
  split; [exact H12 |]. intros H2.
  destruct (Hgate H2) as (Hc & Hf & Hb). repeat split; try assumption.
  intros Hd. apply Hb. rewrite needs_back_value.
  by destruct (documentType (formData s)).
Qed.

Lemma step2_has_valid_documents_witness :
  is_Some (documentFrontFile streaming).
Proof.
  destruct (step2_has_valid_documents desktop streaming) as [_ Hgate];
    [exact streaming_reachable |].
  destruct Hgate as (_ & Hf & _); [reflexivity | exact Hf].
Defined.

(** X14.  One submission at a time: the submission timer is suspended
    exactly while [isSubmitting] is set, never twice, and [isSubmitting]
    is off once the success is shown. *)
Theorem one_submission_at_a_time (nav : Navigator) (s : State) :
  reachable nav s ->
  submit_timers (pending s) = (if isSubmitting s then 1 else 0)%nat
  ∧ (submitSuccess s = true -> isSubmitting s = false)
  ∧ (isSubmitting s = true -> enabled s ClickNext = false).
Proof.
  intros Hreach.
  destruct (reachable_form_invariants nav s Hreach) as (_ & _ & [Hc Hd]).
  split; [exact Hc |]. split; [exact Hd |].
  intros Hsub. cbn [enabled]. rewrite Hsub. apply andb_false_r.
Qed.

Lemma one_submission_at_a_time_witness :
  submit_timers (pending streaming) = 0%nat.
Proof.
  destruct (one_submission_at_a_time desktop streaming) as [Hc _];
    [exact streaming_reachable | exact Hc].
Defined.

(** ** The camera session *)

Lemma cleanup_camera_rendered (b a : State) :
  camera_rendered (effect_cleanup b a) = camera_rendered a.
Proof.
  unfold effect_cleanup, stop_tracks.
  destruct (stream b); try case_bool_decide; reflexivity.
Qed.

Lemma commit_refs_fresh (b a : State) :
  camera_rendered a = true -> camera_rendered b = false ->
  videoRef (commit b a) = Some fresh_video
  ∧ canvasRef (commit b a) = Some fresh_canvas.
Proof.
  intros Ha Hb. unfold commit, update_refs.
  rewrite cleanup_camera_rendered, Ha, Hb. split; reflexivity.
Qed.

Lemma commit_live_same (b a : State) :
  stream b = None ∨ stream b = stream a ->
  liveTracks (commit b a) = liveTracks a.
Proof.
  intros Hs. apply set_eq. intros m. rewrite elem_of_commit_live.
  split; [by intros [? _] |]. intros Hin. split; [exact Hin |].
  destruct Hs as [Hs | Hs]; congruence.
Qed.

Example captured_run : run desktop initial to_captured = Some captured.
Proof. vm_compute. reflexivity. Qed.

Example submitted_run : run desktop initial to_success = Some submitted.
Proof. vm_compute. reflexivity. Qed.

Example requesting_run :
  run desktop initial (take 5 to_streaming) = Some requesting.
Proof. vm_compute. reflexivity. Qed.

Lemma captured_reachable : reachable desktop captured.
Proof.
  apply (run_reachable desktop to_captured initial);
    [apply reachable_initial | exact captured_run].
Qed.

Lemma submitted_reachable : reachable desktop submitted.
Proof.
  apply (run_reachable desktop to_success initial);
    [apply reachable_initial | exact submitted_run].
Qed.

Lemma requesting_reachable : reachable desktop requesting.
Proof.
  apply (run_reachable desktop (take 5 to_streaming) initial);
    [apply reachable_initial | exact requesting_run].
Qed.

(** X15.  When the browser grants a new stream, it becomes the stream of
    the session and the only one with live tracks: the tracks of the
    stream it replaces are stopped. *)
Theorem granted_stream_replaces (nav : Navigator) (gum : GetUserMedia)
    (s : State) (i : nat) (m : MediaStream) :
  reachable nav s ->
  pending s !! i = Some AcquireTask ->
  mediaStream (acquire gum constraintsOptions no_attempts) = Some m ->
  stream s ≠ Some m ->
  ∃ s', step nav s (Resume i (MediaResult gum)) = Some s'
        ∧ stream s' = Some m
        ∧ liveTracks s' = {[m]}
        ∧ showCamera s' = showCamera s
        ∧ videoRef s'
          = (if camera_rendered s
             then Some {| srcObject := Some m; videoWidth := 0;
                          videoHeight := 0 |}
             else None).
Proof.
  intros Hreach Hi Hm Hnew.
  destruct (reachable_invariants nav s Hreach) as [Hown _].
  pose proof (reachable_video_follows nav s Hreach) as Hfollow.
  destruct (reachable_form_invariants nav s Hreach) as (Hrefs & _ & _).
  eexists. split; [unfold step; cbn [enabled handle]; by rewrite Hi |].
  set (s1 := set_pending (delete i (pending s)) s).
  assert (startCamera_resume gum s1
          = bind_video m
              (setStream (Some m)
                 (set_liveTracks ({[m]} ∪ liveTracks s) s1))) as ->
      by (unfold startCamera_resume; by rewrite Hm).
  set (s2 := setStream (Some m) (set_liveTracks ({[m]} ∪ liveTracks s) s1)).
  destruct (bind_video_frame m s2) as (Hshow & Hstream & Hsub & _ & _).
  rewrite commit_stream, commit_showCamera, Hshow, Hstream.
  split; [reflexivity |].
  assert (m ∈ liveTracks (bind_video m s2)) as Hin.
  { unfold bind_video. change (videoRef s2) with (videoRef s).
    destruct (videoRef s) as [v|] eqn:Hv; [| unfold s2; simpl_state; set_solver].
    destruct (srcObject v) as [old|] eqn:Hold;
      unfold s2; simpl_state; [| set_solver].
    assert (old ≠ m) by (intros ->; apply Hnew; by apply (Hfollow v)).
    set_solver. }
  split.
  { apply set_eq. intros m'. rewrite elem_of_commit_live, Hstream.
    unfold s2 at 2. simpl_state. rewrite elem_of_singleton. split.
    - intros [Hin' Hkeep]. apply Hsub in Hin'. unfold s2 in Hin'.
      simpl_state. apply elem_of_union in Hin' as [Hin' | Hin'].
      + by apply elem_of_singleton in Hin'.
      + apply Hown in Hin'. specialize (Hkeep Hin'). congruence.
    - intros ->. split; [exact Hin | reflexivity]. }
  split; [reflexivity |].
  assert (camera_rendered (bind_video m s2) = camera_rendered s) as Hr.
  { unfold bind_video. change (videoRef s2) with (videoRef s).
    destruct (videoRef s) as [v|]; [destruct (srcObject v) |]; reflexivity. }
  unfold commit, update_refs. rewrite cleanup_camera_rendered, Hr.
  unfold refs_mounted in Hrefs.
  destruct (camera_rendered s); [| reflexivity].
  rewrite cleanup_videoRef. destruct Hrefs as [[v Hv] _].
  unfold bind_video. change (videoRef s2) with (videoRef s). rewrite Hv.
  reflexivity.
Qed.

Lemma granted_stream_replaces_witness :
  ∃ s', step desktop requesting (Resume 0 (MediaResult webcam)) = Some s'
        ∧ stream s' = Some 7%nat
        ∧ liveTracks s' = {[7%nat]}.
Proof.
  destruct (granted_stream_replaces desktop webcam requesting 0 7%nat)
    as (s' & Hstep & Hs & Hl & _).
  - exact requesting_reachable.
  - reflexivity.
  - reflexivity.
  - vm_compute. discriminate.
  - exists s'. repeat split; assumption.
Defined.

(** X16.  A capture that fails a check of [capturePhoto] only records a
    camera error: the selfie, the errors of the form, the stream, its
    tracks and the panel are as before, and no encoding is started. *)
Theorem capture_failure_keeps_session (env : CaptureEnv) (s : State) :
  capture_ready env s = false ->
  is_Some (cameraError (capturePhoto env s))
  ∧ pending (capturePhoto env s) = pending s
  ∧ selfieFile (capturePhoto env s) = selfieFile s
  ∧ selfiePreview (capturePhoto env s) = selfiePreview s
  ∧ errors (capturePhoto env s) = errors s
  ∧ stream (capturePhoto env s) = stream s
  ∧ liveTracks (capturePhoto env s) = liveTracks s
  ∧ showCamera (capturePhoto env s) = showCamera s.
Proof.
  unfold capture_ready, capturePhoto, capture_failure.
  destruct (videoRef s) as [v|]; [| intros _; repeat split; eauto].
  destruct (canvasRef s) as [c|]; [| intros _; repeat split; eauto].
  destruct (_ || _); cbn [negb andb]; [intros _; repeat split; eauto |].
  destruct (getContext_2d env); cbn [negb andb];
    [| intros _; repeat split; eauto].
  rewrite is_Some_bool.
  destruct (drawImage_throws env); [intros _; repeat split; eauto |].
  discriminate.
Qed.

Lemma capture_failure_keeps_session_witness :
  is_Some (cameraError (capturePhoto (mkCaptureEnv false None) streaming))
  ∧ pending (capturePhoto (mkCaptureEnv false None) streaming) = [].
Proof.
  destruct (capture_failure_keeps_session (mkCaptureEnv false None)
              streaming) as (He & Hp & _).
  - reflexivity.
  - split; [exact He | exact Hp].
Defined.

(** X17.  When the encoder gives no blob, the callback of the capture only
    records its error: no selfie is stored, and the stream, its tracks and
    the panel stay as they are. *)
Theorem encoder_null_keeps_session (nav : Navigator) (s : State) (i : nat)
    (canvas : Canvas) (type : string) (quality : QArith_base.Q)
    (c : option MediaStream) (payload : string) :
  pending s !! i = Some (BlobTask canvas type quality c) ->
  ∃ s', step nav s (Resume i (BlobResult None payload)) = Some s'
        ∧ cameraError s'
          = Some "Failed to capture image. Please try again."
        ∧ selfieFile s' = selfieFile s
        ∧ selfiePreview s' = selfiePreview s
        ∧ errors s' = errors s
        ∧ stream s' = stream s
        ∧ liveTracks s' = liveTracks s
        ∧ showCamera s' = showCamera s
        ∧ pending s' = delete i (pending s).
Proof.
  intros Hi. eexists.
  split; [unfold step; cbn [enabled handle]; by rewrite Hi |].
  rewrite commit_cameraError, commit_selfieFile, commit_selfiePreview,
    commit_errors, commit_stream, commit_showCamera, commit_pending.
  rewrite commit_live_same by (right; reflexivity).
  repeat split.
Qed.

Lemma encoder_null_keeps_session_witness :
  ∃ s', step desktop
          (commit streaming (capturePhoto (mkCaptureEnv true None) streaming))
          (Resume 0 (BlobResult None EmptyString)) = Some s'
        ∧ selfieFile s' = None
        ∧ showCamera s' = true.
Proof.
  destruct (encoder_null_keeps_session desktop
              (commit streaming
                 (capturePhoto (mkCaptureEnv true None) streaming))
              0 (mkCanvas 640 480) "image/jpeg" jpeg_quality (Some 7%nat)
              EmptyString)
    as (s' & Hstep & _ & Hf & _ & _ & _ & _ & Hshow & _).
  - reflexivity.
  - exists s'. split; [exact Hstep |].
    split; [rewrite Hf | rewrite Hshow]; reflexivity.
Defined.

(** X18.  A cancel does not withdraw the request for the camera: when the
    browser grants the stream afterwards, [stream] holds it and its tracks
    are live although the panel is closed and no video element shows
    it. *)
Theorem cancel_does_not_withdraw_request (nav : Navigator)
    (gum : GetUserMedia) (s : State) (i : nat) (m : MediaStream) :
  enabled s ClickCancel = true ->
  pending s !! i = Some AcquireTask ->
  mediaStream (acquire gum constraintsOptions no_attempts) = Some m ->
  ∃ s1 s2,
    step nav s ClickCancel = Some s1
    ∧ step nav s1 (Resume i (MediaResult gum)) = Some s2
    ∧ showCamera s2 = false
    ∧ videoRef s2 = None
    ∧ stream s2 = Some m
    ∧ m ∈ liveTracks s2.
Proof.
  intros Hen Hi Hm.
  set (s1 := commit s (stopCamera (stream s) s)).
  assert (showCamera s1 = false) as Hshow1.
  { unfold s1. rewrite commit_showCamera.
    by destruct (stopCamera_frame (stream s) s). }
  assert (videoRef s1 = None) as Hv1.
  { apply commit_refs_hidden. by destruct (stopCamera_frame (stream s) s). }
  assert (stream s1 = None) as Hs1.
  { unfold s1. rewrite commit_stream. unfold stopCamera.
    destruct (stream s) eqn:Hs; simpl_state; congruence. }
  assert (pending s1 = pending s) as Hp1.
  { unfold s1. rewrite commit_pending. unfold stopCamera.
    by destruct (stream s). }
  set (s1' := set_pending (delete i (pending s1)) s1).
  assert (startCamera_resume gum s1'
          = setStream (Some m)
              (set_liveTracks ({[m]} ∪ liveTracks s1') s1')) as Hres.
  { unfold startCamera_resume. rewrite Hm. unfold bind_video.
    simpl_state. change (videoRef s1') with (videoRef s1).
    by rewrite Hv1. }
  exists s1, (commit s1 (startCamera_resume gum s1')).
  split; [unfold step; by rewrite Hen |].
  assert (pending s1 !! i = Some AcquireTask) as Hi1
      by (by rewrite Hp1).
  split; [unfold step; cbn [enabled handle]; by rewrite Hi1 |].
  rewrite commit_showCamera, commit_stream, Hres.
  split; [exact Hshow1 |].
  split; [by apply commit_refs_hidden |].
  split; [reflexivity |].
  rewrite commit_live_same by (by left). simpl_state. set_solver.
Qed.

Lemma cancel_does_not_withdraw_request_witness :
  ∃ s1 s2,
    step desktop requesting ClickCancel = Some s1
    ∧ step desktop s1 (Resume 0 (MediaResult webcam)) = Some s2
    ∧ showCamera s2 = false
    ∧ stream s2 = Some 7%nat
    ∧ 7%nat ∈ liveTracks s2.
Proof.
  destruct (cancel_does_not_withdraw_request desktop webcam requesting 0
              7%nat)
    as (s1 & s2 & H1 & H2 & H3 & _ & H4 & H5);
    [reflexivity | reflexivity | reflexivity |].
  exists s1, s2. repeat split; assumption.
Defined.

(** X19.  Going back to step 1 and forward again while the camera is on
    leaves the stream running and mounts a new video element that is not
    bound to it: the panel is shown, no request for the camera is made,
    and every capture is refused as not ready. *)
Theorem previous_next_unbinds_video (nav : Navigator) (env : CaptureEnv)
    (s : State) :
  reachable nav s ->
  camera_rendered s = true ->
  isSubmitting s = false ->
  ∃ s1 s2,
    step nav s ClickPrevious = Some s1
    ∧ step nav s1 ClickNext = Some s2
    ∧ currentStep s2 = 2
    ∧ showCamera s2 = true
    ∧ stream s2 = stream s
    ∧ liveTracks s2 = liveTracks s
    ∧ pending s2 = pending s
    ∧ videoRef s2 = Some fresh_video
    ∧ capturePhoto env s2
      = setCameraError
          (Some "Camera stream not ready. Please wait a moment and try again.")
          s2.
Proof.
  intros Hreach Hr Hidle.
  destruct (reachable_form_invariants nav s Hreach) as (_ & [_ Hgate] & _).
  unfold camera_rendered, step2_rendered, form_rendered in Hr.
  apply andb_true_iff in Hr as [Hr Hshow].
  apply andb_true_iff in Hr as [Hform Hstep].
  apply Z.eqb_eq in Hstep. apply negb_true_iff in Hform.
  specialize (Hgate Hstep).
  set (s1 := commit s (handlePrevious s)).
  assert (currentStep s1 = 1) as Hstep1.
  { unfold s1. rewrite commit_currentStep. unfold handlePrevious.
    simpl_state. lia. }
  assert (showCamera s1 = true) as Hshow1
      by (unfold s1; by rewrite commit_showCamera).
  assert (submitSuccess s1 = false) as Hform1
      by (unfold s1; by rewrite commit_submitSuccess).
  assert (isSubmitting s1 = false) as Hidle1
      by (unfold s1; rewrite <- Hidle; unfold_commit).
  assert (camera_rendered s1 = false) as Hr1.
  { unfold camera_rendered, step2_rendered. by rewrite Hstep1, andb_false_r. }
  assert (documents_valid s1) as Hvalid1.
  { unfold documents_valid, needs_back, s1 in *.
    by rewrite commit_formData, commit_documentFrontFile,
      commit_documentBackFile. }
  assert (handleNext s1 = setCurrentStep 2 (setErrors ∅ s1)) as Hnext.
  { rewrite handleNext_cases, Hstep1. cbn [Z.eqb Pos.eqb].
    apply validateStep1_valid in Hvalid1. rewrite Hvalid1, Hshow1.
    reflexivity. }
  set (s2 := commit s1 (handleNext s1)).
  destruct (commit_refs_fresh s1 (handleNext s1)) as [Hv2 Hc2].
  { rewrite Hnext. unfold camera_rendered, step2_rendered, form_rendered.
    simpl_state. by rewrite Hform1, Hshow1. }
  { exact Hr1. }
  exists s1, s2.
  split.
  { unfold step. cbn [enabled]. unfold form_rendered.
    rewrite Hform, Hstep. reflexivity. }
  split.
  { unfold step. cbn [enabled]. unfold form_rendered.
    rewrite Hform1, Hidle1. reflexivity. }
  unfold s2 at 1 2 3 4 5.
  rewrite commit_currentStep, commit_showCamera, commit_stream,
    commit_pending, commit_live_same by (right; by rewrite Hnext).
  rewrite Hnext. simpl_state.
  split; [reflexivity |]. split; [exact Hshow1 |].
  split; [unfold s1; by rewrite commit_stream |].
  split; [unfold s1; by rewrite commit_live_same by (by right) |].
  split; [unfold s1; by rewrite commit_pending |].
  split; [exact Hv2 |].
  unfold capturePhoto. fold s2 in Hv2, Hc2. rewrite Hv2, Hc2. reflexivity.
Qed.

Lemma previous_next_unbinds_video_witness :
  ∃ s1 s2,
    step desktop streaming ClickPrevious = Some s1
    ∧ step desktop s1 ClickNext = Some s2
    ∧ stream s2 = Some 7%nat
    ∧ videoRef s2 = Some fresh_video.
Proof.
  destruct (previous_next_unbinds_video desktop (mkCaptureEnv true None)
              streaming)
    as (s1 & s2 & H1 & H2 & _ & _ & H3 & _ & _ & H4 & _);
    [exact streaming_reachable | reflexivity | reflexivity |].
  exists s1, s2. repeat split; assumption.
Defined.

(** ** Reset and submission *)

(** X20.  From the success page, the button for another application gives
    back the initial state of the component, but for the callbacks that
    are still suspended: they are not withdrawn. *)
Theorem reset_gives_initial (nav : Navigator) (s : State) :
  reachable nav s ->
  submitSuccess s = true ->
  step nav s ClickSubmitAnother = Some (set_pending (pending s) initial).
Proof.
  intros Hreach Hdone.
  destruct (reachable_invariants nav s Hreach) as [Hown _].
  destruct (reachable_form_invariants nav s Hreach) as (_ & _ & [_ Hidle]).
  unfold step. cbn [enabled handle]. rewrite Hdone. f_equal.
  assert (showCamera (resetForm (stream s) s) = false) as Hshow
      by (by destruct (resetForm_frame (stream s) s)).
  destruct (commit_refs_hidden s _ Hshow) as [Hv Hc].
  apply State_eq;
    rewrite ?commit_currentStep, ?commit_formData, ?commit_documentFrontFile,
      ?commit_documentBackFile, ?commit_selfieFile,
      ?commit_documentFrontPreview, ?commit_documentBackPreview,
      ?commit_selfiePreview, ?commit_errors, ?commit_submitSuccess,
      ?commit_showCamera, ?commit_stream, ?commit_cameraError,
      ?commit_pending;
    try assumption;
    try (unfold resetForm; destruct (stream s); reflexivity).
  - transitivity (isSubmitting s); [unfold_commit |].
    exact (Hidle Hdone).
  - unfold resetForm. by destruct (stream s) eqn:Hs.
  - apply set_eq. intros m. rewrite elem_of_commit_live. split.
    + intros [Hin _]. exfalso. revert Hin. unfold resetForm.
      destruct (stream s) as [m0|] eqn:Hs; simpl_state.
      * rewrite elem_of_difference, elem_of_singleton. intros [Hin Hne].
        apply Hown in Hin. congruence.
      * intros Hin. apply Hown in Hin. congruence.
    + intros Hin. by apply not_elem_of_empty in Hin.
Qed.

Lemma reset_gives_initial_witness :
  step desktop submitted ClickSubmitAnother = Some initial.
Proof.
  rewrite (reset_gives_initial desktop submitted);
    [reflexivity | exact submitted_reachable | reflexivity].
Defined.

(** X21.  The selfie decides step 2: after the callback of a capture with
    a blob the validation of step 2 passes and the selfie error is
    cleared, after the remove button it fails, and a capture without a
    blob changes nothing of it. *)
Theorem selfie_decides_step2 (nav : Navigator) (canvas : Canvas)
    (type : string) (quality : QArith_base.Q) (c : option MediaStream)
    (n : N) (payload : string) (s : State) :
  (validateStep2
     (toBlob_callback canvas type quality c (Some n) payload s)).2 = true
  ∧ JS.get
      (errors (toBlob_callback canvas type quality c (Some n) payload s))
      "selfie" = None
  ∧ (validateStep2 (removeSelfie nav s)).2 = false
  ∧ selfiePreview (removeSelfie nav s) = None
  ∧ (validateStep2
       (toBlob_callback canvas type quality c None payload s)).2
    = (validateStep2 s).2.
Proof.
  rewrite !validateStep2_result, !is_Some_bool.
  split; [unfold toBlob_callback, stopCamera; by destruct c |].
  split.
  { unfold toBlob_callback. simpl_state. apply get_insert_eq. }
  split; [unfold removeSelfie, startCamera;
          by destruct (startCamera_checks nav) |].
  split; [unfold removeSelfie, startCamera;
          by destruct (startCamera_checks nav) |].
  reflexivity.
Qed.

(** X22.  The decoding of a file is not withdrawn by the reset: when it
    ends after the button for another application, its file and preview
    are stored in the form that was just emptied. *)
Theorem decode_survives_reset (nav : Navigator) (s : State) (i : nat)
    (f : File) (type : Slot) (result : option string) :
  submitSuccess s = true ->
  pending s !! i = Some (ReaderTask f type) ->
  ∃ s1 s2,
    step nav s ClickSubmitAnother = Some s1
    ∧ slot_file type s1 = None
    ∧ step nav s1 (Resume i (ReaderResult result)) = Some s2
    ∧ slot_file type s2 = Some f
    ∧ slot_preview type s2 = result
    ∧ currentStep s2 = 1
    ∧ formData s2 = {| documentType := passport; country := EmptyString |}.
Proof.
  intros Hdone Hi.
  set (s1 := commit s (resetForm (stream s) s)).
  assert (pending s1 !! i = Some (ReaderTask f type)) as Hi1.
  { unfold s1. rewrite commit_pending. unfold resetForm.
    by destruct (stream s). }
  exists s1, (commit s1 (handle nav (Resume i (ReaderResult result)) s1)).
  split; [unfold step; cbn [enabled]; by rewrite Hdone |].
  split.
  { unfold s1. rewrite commit_slot_file. unfold resetForm.
    by destruct type, (stream s). }
  split; [unfold step; cbn [enabled]; by rewrite Hi1 |].
  cbn [handle]. rewrite Hi1.
  rewrite commit_slot_file, commit_slot_preview, commit_currentStep,
    commit_formData.
  destruct (reader_onloadend_slot f type result
              (set_pending (delete i (pending s1)) s1)) as (Hf & Hp & _).
  split; [exact Hf |]. split; [exact Hp |].
  assert (currentStep s1 = 1 ∧ formData s1
          = {| documentType := passport; country := EmptyString |})
    as [Hstep Hform].
  { unfold s1. rewrite commit_currentStep, commit_formData. unfold resetForm.
    by destruct (stream s). }
  split; [by destruct type | by destruct type].
Qed.

Example submitted_decoding_run :
  run desktop initial to_success_decoding = Some submitted_decoding.
Proof. vm_compute. reflexivity. Qed.

Lemma decode_survives_reset_witness :
  ∃ s1 s2,
    step desktop submitted_decoding ClickSubmitAnother = Some s1
    ∧ slot_file front s1 = None
    ∧ step desktop s1
        (Resume 0 (ReaderResult (Some "data:image/png;base64,iVBORw0KGgo=")))
      = Some s2
    ∧ slot_file front s2 = Some scan_png.
Proof.
  destruct (decode_survives_reset desktop submitted_decoding 0 scan_png
              front (Some "data:image/png;base64,iVBORw0KGgo="))
    as (s1 & s2 & H1 & H2 & H3 & H4 & _);
    [reflexivity | reflexivity |].
  exists s1, s2. repeat split; assumption.
Defined.

(** ** Witnesses for the panel and the preview *)

Lemma panel_xor_preview_step_witness :
  panel_xor_preview
    (commit captured (removeSelfie desktop captured)).
Proof.
  apply (panel_xor_preview_step desktop captured _ ClickRemoveSelfie).
  - left. reflexivity.
  - intros [Hshow _]. vm_compute in Hshow. discriminate Hshow.
  - reflexivity.
Defined.

Lemma panel_preview_transitions_witness :
  (ClickRemoveSelfie = ClickRemoveSelfie
   ∧ selfiePreview (commit captured (removeSelfie desktop captured)) = None)
  ∨ deferred_start captured ClickRemoveSelfie = true.
Proof.
  destruct (panel_preview_transitions desktop captured
              (commit captured (removeSelfie desktop captured))
              ClickRemoveSelfie) as [_ Hopen].
  - reflexivity.
  - apply Hopen; reflexivity.
Defined.

(** ** Messages of the camera and the first frame *)

(** X23.  The message of a failed start always begins with the same
    sentence, and the name of the error decides the rest before its text
    is looked at: a refused permission, a missing camera and a busy camera
    each have their message, whatever the text of the error says. *)
Theorem camera_error_categories (err : JsError) :
  (∃ rest, camera_error_message err = "Unable to access camera. " +:+ rest)
  ∧ JS.truthy (camera_error_message err) = true
  ∧ (err_name err ∈ ["NotAllowedError"; "PermissionDeniedError"] ->
     camera_error_message err
     = "Unable to access camera. Please allow camera permissions in your browser settings.")
  ∧ (err_name err ∈ ["NotFoundError"; "OverconstrainedError"] ->
     camera_error_message err
     = "Unable to access camera. No camera found on this device.")
  ∧ (err_name err ∈ ["NotReadableError"; "TrackStartError"] ->
     camera_error_message err
     = "Unable to access camera. Camera is already in use by another application.").
Proof.
  split; [unfold camera_error_message; eauto |].
  split; [reflexivity |].
  unfold camera_error_message.
  split; [| split]; intros Hname;
    rewrite !elem_of_cons, elem_of_nil in Hname;
    destruct Hname as [-> | [-> | []]]; reflexivity.
Qed.

Lemma camera_error_categories_witness :
  camera_error_message overconstrained
  = "Unable to access camera. No camera found on this device.".
Proof.
  destruct (camera_error_categories overconstrained)
    as (_ & _ & _ & Hfound & _).
  apply Hfound. unfold overconstrained. cbn [err_name].
  rewrite !elem_of_cons. auto.
Defined.

(** X24.  Once the video element reports its first frame with a width and
    a height, a capture passes the checks of [capturePhoto], also when
    [play()] was refused: the refusal only writes the camera error and the
    session stays as it is. *)
Theorem first_frame_allows_capture (nav : Navigator) (s : State) (w h : N)
    (play_ok : bool) :
  reachable nav s ->
  enabled s (VideoLoadedData w h play_ok) = true ->
  w ≠ 0%N -> h ≠ 0%N ->
  ∃ s', step nav s (VideoLoadedData w h play_ok) = Some s'
        ∧ stream s' = stream s
        ∧ showCamera s' = showCamera s
        ∧ liveTracks s' = liveTracks s
        ∧ cameraError s'
          = (if play_ok then cameraError s else Some video_error_message)
        ∧ capture_ready (mkCaptureEnv true None) s' = true.
Proof.
  intros Hreach Hen Hw Hh.
  destruct (reachable_form_invariants nav s Hreach) as (Hrefs & _ & _).
  eexists. split; [unfold step; by rewrite Hen |].
  cbn [enabled handle] in *.
  destruct (videoRef s) as [v|] eqn:Hv; [| discriminate].
  unfold refs_mounted in Hrefs.
  destruct (camera_rendered s) eqn:Hrs;
    [| destruct Hrefs as [Hnone _]; congruence].
  destruct Hrefs as [_ [c Hcv]].
  destruct (video_onloadeddata_frame w h play_ok s)
    as (Hshow & Hstream & Hlive & _).
  rewrite commit_stream, commit_showCamera, commit_cameraError, Hshow,
    Hstream.
  rewrite commit_live_same by (right; by rewrite Hstream).
  split; [reflexivity |]. split; [reflexivity |]. split; [exact Hlive |].
  split; [unfold video_onloadeddata; rewrite Hv; by destruct play_ok |].
  assert (camera_rendered (video_onloadeddata w h play_ok s) = true) as Hr'.
  { rewrite <- Hrs. unfold video_onloadeddata. rewrite Hv.
    by destruct play_ok. }
  unfold capture_ready, commit, update_refs.
  rewrite cleanup_camera_rendered, Hr', Hrs, cleanup_videoRef,
    cleanup_canvasRef.
  unfold video_onloadeddata. rewrite Hv.
  assert ((w =? 0)%N = false) as Hw' by (by apply N.eqb_neq).
  assert ((h =? 0)%N = false) as Hh' by (by apply N.eqb_neq).
  destruct play_ok; simpl_state; rewrite Hcv; cbn [videoWidth videoHeight];
    by rewrite Hw', Hh'.
Qed.

Lemma first_frame_allows_capture_witness :
  ∃ s', step desktop
          (default initial (run desktop initial (take 6 to_streaming)))
          (VideoLoadedData 640 480 false) = Some s'
        ∧ cameraError s' = Some video_error_message
        ∧ capture_ready (mkCaptureEnv true None) s' = true.
Proof.
  destruct (first_frame_allows_capture desktop
              (default initial (run desktop initial (take 6 to_streaming)))
              640 480 false)
    as (s' & Hstep & _ & _ & _ & Herr & Hready).
  - apply (run_reachable desktop (take 6 to_streaming) initial);
      [apply reachable_initial | vm_compute; reflexivity].
  - reflexivity.
  - discriminate.
  - discriminate.
  - exists s'. repeat split; assumption.
Defined.
